(** * HermesRestaurantCollector: the collection pipeline of
    [notebooks/scraping_101.py], embedded and verified.

    The script pages through a places API, removes repeated listings,
    fetches details and reviews for each listing and flattens the result
    into two tables.  Everything the script does with the outside world
    (HTTP requests, [time.sleep], [print]) is kept as an event in a trace;
    the remote service is an arbitrary function of the interaction so far
    and of the request.  The [while True] paging loop takes a bound on the
    number of pages ([fuel]); every other loop runs over a list.  A
    [DataFrame] is the list of the row dicts it is built from; writing the
    JSON and CSV files is not modelled. *)

From Stdlib Require Import QArith Qcanon.
From stdpp Require Import base numbers strings pretty list gmap.

Set Warnings "-register-all,-clear-no-such-hyp".
Open Scope Z_scope.

(** ** JSON values as Python sees them *)

(** What [response.json()] returns.  A Python [int] is its value; a
    (finite) [float] is its exact rational value, which is what Python's
    equality and hashing look at. *)
Inductive value :=
  | VNone
  | VBool (b : bool)
  | VInt (z : Z)
  | VFloat (x : Qc)
  | VStr (s : string)
  | VList (l : list value)
  | VDict (d : gmap string value).

Inductive exn :=
  | KeyError (key : string)
  | TypeError
  | AttributeError
  | RequestException
  | JSONDecodeError.

(** Evaluating an expression either gives a value or raises. *)
Global Instance exn_bind : MBind (sum exn) :=
  λ A B f m, match m with inl e => inl e | inr a => f a end.

Module Py.

(** [bool(v)], as tested by [if v:]. *)
Definition truthy (v : value) : bool :=
  match v with
  | VNone => false
  | VBool b => b
  | VInt z => negb (z =? 0)
  | VFloat x => if decide (x = 0%Qc) then false else true
  | VStr s => negb (String.eqb s "")
  | VList l => match l with [] => false | _ => true end
  | VDict d => if decide (d = ∅) then false else true
  end.

(** [v == 's'] for a string literal. *)
Definition eq_str (v : value) (s : string) : bool :=
  match v with
  | VStr s' => String.eqb s' s
  | _ => false
  end.

(** [v['k']] with a string key: only a dict can be indexed by a string. *)
Definition getitem (v : value) (k : string) : exn + value :=
  match v with
  | VDict d => match d !! k with Some x => inr x | None => inl (KeyError k) end
  | _ => inl TypeError
  end.

(** [v.get('k', dflt)]: of the JSON types only dict has [get]. *)
Definition get (v : value) (k : string) (dflt : value) : exn + value :=
  match v with
  | VDict d => inr (default dflt (d !! k))
  | _ => inl AttributeError
  end.

(** [v.items()], read as a map. *)
Definition items (v : value) : exn + gmap string value :=
  match v with
  | VDict d => inr d
  | _ => inl AttributeError
  end.

(** The one-character strings of a string, as iterating over it gives. *)
Definition chars (s : string) : list value :=
  (λ c, VStr (String c EmptyString)) <$> String.list_ascii_of_string s.

(** [list(v)]: the elements a [for] loop, [extend] or [join] sees.  A dict
    yields its keys (here in the order of [map_to_list], the map does not
    keep Python's insertion order). *)
Definition iter (v : value) : exn + list value :=
  match v with
  | VList l => inr l
  | VStr s => inr (chars s)
  | VDict d => inr ((λ kv, VStr kv.1) <$> map_to_list d)
  | _ => inl TypeError
  end.

(** [len(v)]; a string counts the characters of its representation. *)
Definition len (v : value) : exn + Z :=
  match v with
  | VList l => inr (Z.of_nat (length l))
  | VStr s => inr (Z.of_nat (String.length s))
  | VDict d => inr (Z.of_nat (size d))
  | _ => inl TypeError
  end.

(** ['k' in v]. *)
Definition contains (k : string) (v : value) : exn + bool :=
  match v with
  | VDict d => inr (bool_decide (is_Some (d !! k)))
  | VList l => inr (existsb (λ x, eq_str x k) l)
  | VStr s => inr (match String.index 0 k s with Some _ => true | None => false end)
  | _ => inl TypeError
  end.

(** Joining the items of an iterable: every item must be a string. *)
Fixpoint join_strs (sep : string) (l : list value) : exn + string :=
  match l with
  | [] => inr ""%string
  | [VStr s] => inr s
  | VStr s :: l' =>
      match join_strs sep l' with
      | inr r => inr (s +:+ sep +:+ r)
      | inl e => inl e
      end
  | _ => inl TypeError
  end.

(** [sep.join(v)] *)
Definition join (sep : string) (v : value) : exn + string :=
  l ← iter v; join_strs sep l.

(** The keys of a [set]: numbers and booleans hash and compare by value
    ([True == 1 == 1.0]); lists and dicts are unhashable. *)
Inductive hkey :=
  | KNone
  | KNum (x : Qc)
  | KStr (s : string).

Definition hash (v : value) : exn + hkey :=
  match v with
  | VNone => inr KNone
  | VBool b => inr (KNum (if b then 1%Qc else 0%Qc))
  | VInt z => inr (KNum (Q2Qc (inject_Z z)))
  | VFloat x => inr (KNum x)
  | VStr s => inr (KStr s)
  | VList _ | VDict _ => inl TypeError
  end.

(** [l[:k]]. *)
Definition slice_to {A} (l : list A) (k : Z) : list A :=
  if 0 <=? k then take (Z.to_nat k) l
  else take (Z.to_nat (Z.of_nat (length l) + k)) l.

End Py.

Global Instance hkey_eq_dec : EqDecision Py.hkey.
Proof. solve_decision. Defined.

Global Instance hkey_countable : Countable Py.hkey.
Proof.
  refine (inj_countable'
    (λ k, match k with
          | Py.KNone => inl ()
          | Py.KNum x => inr (inl x)
          | Py.KStr s => inr (inr s)
          end)
    (λ c, match c with
          | inl _ => Py.KNone
          | inr (inl x) => Py.KNum x
          | inr (inr s) => Py.KStr s
          end) _).
  by intros [].
Defined.

(** ** The outside world *)

(** One observable action of the script.  A request is recorded together
    with what came back: either the decoded JSON body or the exception that
    [requests.get] / [response.json()] raised. *)
Inductive event :=
  | EGet (url : string) (params : list (string * value)) (response : exn + value)
  | ESleep (seconds : Q)
  | EPrint (text : string) (args : list value).

(** The remote service: its answer may depend on everything that happened
    before (earlier requests, pauses) and on the request itself. *)
Definition service := list event → string → list (string * value) → exn + value.

(** How a call ends: normally, with an uncaught exception, or not within
    the allotted number of loop iterations. *)
Inductive res (A : Type) :=
  | Ok (a : A)
  | Raise (e : exn)
  | OutOfFuel.
Global Arguments Ok {A} a.
Global Arguments Raise {A} e.
Global Arguments OutOfFuel {A}.

(** A computation reads the trace so far and extends it. *)
Definition prog (A : Type) := list event → res A * list event.

Definition ret {A} (a : A) : prog A := λ t, (Ok a, t).

Definition bind {A B} (m : prog A) (k : A → prog B) : prog B :=
  λ t, match m t with
       | (Ok a, t') => k a t'
       | (Raise e, t') => (Raise e, t')
       | (OutOfFuel, t') => (OutOfFuel, t')
       end.

Definition lift {A} (r : exn + A) : prog A :=
  λ t, match r with inr a => (Ok a, t) | inl e => (Raise e, t) end.

Definition out_of_fuel {A} : prog A := λ t, (OutOfFuel, t).

Declare Scope prog_scope.
Delimit Scope prog_scope with prog.
Notation "x <- m ;; k" := (bind m (λ x, k))
  (at level 100, m at next level, right associativity) : prog_scope.
Notation "m ;;; k" := (bind m (λ _, k))
  (at level 100, right associativity) : prog_scope.
Open Scope prog_scope.

(** The line of 60 equals signs printed around a heading. *)
Definition rule : string :=
  "============================================================".

Definition sleep (seconds : Q) : prog unit :=
  λ t, (Ok (), t ++ [ESleep seconds]).

(** [print(f"...")]: [text] is the format string with [{}] where a value
    is interpolated (a leading newline is left out), [args] the values. *)
Definition print (text : string) (args : list value) : prog unit :=
  λ t, (Ok (), t ++ [EPrint text args]).

(** ** The collector *)

(** The attributes of a [HermesRestaurantCollector]. *)
Record collector := {
  api_key : string;
  base_url : string;
  barcelona_coords : string
}.

(** [__init__] *)
Definition init (google_api_key : string) : collector :=
  {| api_key := google_api_key;
     base_url := "https://maps.googleapis.com/maps/api/place";
     barcelona_coords := "41.3851,2.1734" |}.

Section Collector.

Variable api : service.

(** [requests.get(url, params=params).json()] *)
Definition requests_get (url : string) (params : list (string * value)) : prog value :=
  λ t, let r := api t url params in
       (match r with inr v => Ok v | inl e => Raise e end,
        t ++ [EGet url params r]).

(** *** AreaSearch *)

Definition nearbysearch (self : collector) : string :=
  base_url self +:+ "/nearbysearch/json".

Definition first_page_params (self : collector) (location : string) (radius : Z)
  : list (string * value) :=
  [("location", VStr location); ("radius", VInt radius);
   ("type", VStr "restaurant"); ("key", VStr (api_key self));
   ("language", VStr "es")]%string.

Definition next_page_params (self : collector) (token : value)
  : list (string * value) :=
  [("pagetoken", token); ("key", VStr (api_key self))]%string.

(** The [while True] loop of [get_restaurants_in_area]; [fuel] bounds the
    number of pages requested. *)
Fixpoint area_loop (fuel : nat) (self : collector)
    (params : list (string * value)) (all_restaurants : list value)
    : prog (list value) :=
  match fuel with
  | O => out_of_fuel
  | S fuel' =>
      data <- requests_get (nearbysearch self) params ;;
      status <- lift (Py.getitem data "status") ;;
      if negb (Py.eq_str status "OK") then
        (status <- lift (Py.getitem data "status") ;;
         if Py.eq_str status "ZERO_RESULTS" then
           print "No more results in this area" []
         else
           (s <- lift (Py.get data "status" VNone) ;;
            print "Error: {}" [s])) ;;;
        ret all_restaurants
      else
        results <- lift (Py.getitem data "results") ;;
        batch <- lift (Py.iter results) ;;
        let all_restaurants := all_restaurants ++ batch in
        has_next <- lift (Py.contains "next_page_token" data) ;;
        if has_next : bool then
          sleep 2 ;;;
          token <- lift (Py.getitem data "next_page_token") ;;
          area_loop fuel' self (next_page_params self token) all_restaurants
        else
          ret all_restaurants
  end.

Definition get_restaurants_in_area (fuel : nat) (self : collector)
    (location : option string) (radius : Z) : prog (list value) :=
  let location :=
    match location with
    | None => barcelona_coords self
    | Some l => l
    end in
  area_loop fuel self (first_page_params self location radius) [].

(** *** Deduplicator *)

Definition search_points : list (string * string) :=
  [("41.3851,2.1734", "City Center");
   ("41.3874,2.1686", "Gothic Quarter");
   ("41.3947,2.1771", "Eixample");
   ("41.4036,2.1744", "Gràcia");
   ("41.3797,2.1894", "Poblenou");
   ("41.3609,2.1489", "Montjuïc");
   ("41.4145,2.1527", "Sant Andreu");
   ("41.3716,2.1228", "Sants");
   ("41.4331,2.1789", "Horta")]%string.

(** The inner loop of [collect_barcelona_restaurants]: keep the listings
    of one area whose [place_id] is not in [seen_place_ids] yet. *)
Fixpoint remove_duplicates (restaurants : list value)
    (seen_place_ids : gset Py.hkey) (new_restaurants : list value)
    : exn + (gset Py.hkey * list value) :=
  match restaurants with
  | [] => inr (seen_place_ids, new_restaurants)
  | rest :: restaurants' =>
      place_id ← Py.getitem rest "place_id";
      k ← Py.hash place_id;
      if decide (k ∉ seen_place_ids) then
        remove_duplicates restaurants'
          (seen_place_ids ∪ {[k]}) (new_restaurants ++ [rest])
      else
        remove_duplicates restaurants' seen_place_ids new_restaurants
  end.

(** The loop over the search points. *)
Fixpoint collect_loop (fuel : nat) (self : collector)
    (points : list (string * string))
    (all_restaurants : list value) (seen_place_ids : gset Py.hkey)
    : prog (list value) :=
  match points with
  | [] => ret all_restaurants
  | (location, neighborhood) :: points' =>
      restaurants <- get_restaurants_in_area fuel self (Some location) 2000 ;;
      r <- lift (remove_duplicates restaurants seen_place_ids []) ;;
      let seen_place_ids := r.1 in
      let new_restaurants := r.2 in
      let all_restaurants := all_restaurants ++ new_restaurants in
      print "New restaurants found: {}" [VInt (Z.of_nat (length new_restaurants))] ;;;
      print "Total unique restaurants: {}" [VInt (Z.of_nat (length all_restaurants))] ;;;
      sleep 3 ;;;
      collect_loop fuel self points' all_restaurants seen_place_ids
  end.

Definition collect_barcelona_restaurants (fuel : nat) (self : collector)
    (num_areas : Z) : prog (list value) :=
  all_restaurants <- collect_loop fuel self search_points [] ∅ ;;
  print rule [] ;;;
  print "Collection complete!" [] ;;;
  print "Total restaurants found: {}" [VInt (Z.of_nat (length all_restaurants))] ;;;
  print rule [] ;;;
  ret all_restaurants.

(** *** DetailEnricher *)

Definition details_url (self : collector) : string :=
  base_url self +:+ "/details/json".

Definition details_params (self : collector) (place_id : value)
  : list (string * value) :=
  [("place_id", place_id); ("key", VStr (api_key self));
   ("fields", VStr "name,rating,formatted_address,geometry,formatted_phone_number,website,price_level,types,user_ratings_total,reviews,opening_hours");
   ("language", VStr "es")]%string.

(** Returns the detail payload, or [None] (after a log line) when the
    status is not OK. *)
Definition get_restaurant_details (self : collector) (place_id : value)
    : prog value :=
  data <- requests_get (details_url self) (details_params self place_id) ;;
  status <- lift (Py.getitem data "status") ;;
  if Py.eq_str status "OK" then
    lift (Py.getitem data "result")
  else
    s <- lift (Py.get data "status" VNone) ;;
    print "Error getting details for {}: {}" [place_id; s] ;;;
    ret VNone.

(** The dict literal built for a listing whose details came back; the
    entries are evaluated top to bottom. *)
Definition enriched_record (restaurant details : value) : exn + value :=
  place_id ← Py.getitem restaurant "place_id";
  name ← Py.get details "name" VNone;
  address ← Py.get details "formatted_address" VNone;
  geometry ← Py.getitem details "geometry";
  location ← Py.getitem geometry "location";
  lat ← Py.getitem location "lat";
  geometry ← Py.getitem details "geometry";
  location ← Py.getitem geometry "location";
  lng ← Py.getitem location "lng";
  rating ← Py.get details "rating" VNone;
  total_reviews ← Py.get details "user_ratings_total" (VInt 0);
  price_level ← Py.get details "price_level" VNone;
  phone ← Py.get details "formatted_phone_number" VNone;
  website ← Py.get details "website" VNone;
  types ← Py.get details "types" (VList []);
  types ← Py.join ", " types;
  reviews ← Py.get details "reviews" (VList []);
  inr (VDict (list_to_map
    [("place_id", place_id); ("name", name); ("address", address);
     ("lat", lat); ("lng", lng); ("rating", rating);
     ("total_reviews", total_reviews); ("price_level", price_level);
     ("phone", phone); ("website", website); ("types", VStr types);
     ("reviews", reviews)]%string)).

(** The body of the [for idx, restaurant in enumerate(restaurants, 1)]
    loop; [total] is [len(restaurants)]. *)
Definition enrich_body (self : collector) (total : Z) (idx : Z)
    (restaurant : value) (enriched_data : list value)
    : prog (list value) :=
  name <- lift (Py.get restaurant "name" (VStr "Unknown")) ;;
  print "[{}/{}] {}" [VInt idx; VInt total; name] ;;;
  place_id <- lift (Py.getitem restaurant "place_id") ;;
  details <- get_restaurant_details self place_id ;;
  enriched_data <-
    (if Py.truthy details then
       enriched <- lift (enriched_record restaurant details) ;;
       let enriched_data := enriched_data ++ [enriched] in
       rating <- lift (Py.getitem enriched "rating") ;;
       reviews <- lift (Py.getitem enriched "reviews") ;;
       n <- lift (Py.len reviews) ;;
       print "   ✓ Rating: {}, Reviews: {}" [rating; VInt n] ;;;
       ret enriched_data
     else ret enriched_data) ;;
  sleep (1 # 2) ;;;
  ret enriched_data.

Fixpoint enrich_loop (self : collector) (total : Z) (idx : Z)
    (restaurants : list value) (enriched_data : list value)
    : prog (list value) :=
  match restaurants with
  | [] => ret enriched_data
  | restaurant :: restaurants' =>
      enriched_data <- enrich_body self total idx restaurant enriched_data ;;
      enrich_loop self total (idx + 1) restaurants' enriched_data
  end.

Definition enrich_with_details_and_reviews (self : collector)
    (restaurants : list value) (max_restaurants : option Z)
    : prog (list value) :=
  let restaurants :=
    match max_restaurants with
    | Some k => if negb (k =? 0) then Py.slice_to restaurants k else restaurants
    | None => restaurants
    end in
  print rule [] ;;;
  print "Enriching {} restaurants with details and reviews"
    [VInt (Z.of_nat (length restaurants))] ;;;
  print rule [] ;;;
  enrich_loop self (Z.of_nat (length restaurants)) 1 restaurants [].

(** *** Exporter *)

(** [rest_data]: the record without its reviews, plus their number. *)
Definition restaurant_row (rest : value) : exn + value :=
  items ← Py.items rest;
  let rest_data := filter (λ kv, kv.1 ≠ "reviews"%string) items in
  reviews ← Py.get rest "reviews" (VList []);
  n ← Py.len reviews;
  inr (VDict (<["num_reviews_collected"%string := VInt n]> rest_data)).

(** [review_data] *)
Definition review_row (rest review : value) : exn + value :=
  place_id ← Py.getitem rest "place_id";
  restaurant_name ← Py.getitem rest "name";
  author_name ← Py.get review "author_name" VNone;
  rating ← Py.get review "rating" VNone;
  text ← Py.get review "text" VNone;
  time ← Py.get review "time" VNone;
  language ← Py.get review "language" VNone;
  relative_time ← Py.get review "relative_time_description" VNone;
  inr (VDict (list_to_map
    [("place_id", place_id); ("restaurant_name", restaurant_name);
     ("author_name", author_name); ("rating", rating); ("text", text);
     ("time", time); ("language", language);
     ("relative_time", relative_time)]%string)).

Fixpoint reviews_loop (rest : value) (reviews : list value)
    (all_reviews : list value) : exn + list value :=
  match reviews with
  | [] => inr all_reviews
  | review :: reviews' =>
      review_data ← review_row rest review;
      reviews_loop rest reviews' (all_reviews ++ [review_data])
  end.

Fixpoint dataframe_loop (enriched_data : list value)
    (restaurants all_reviews : list value) : exn + (list value * list value) :=
  match enriched_data with
  | [] => inr (restaurants, all_reviews)
  | rest :: enriched_data' =>
      rest_data ← restaurant_row rest;
      let restaurants := restaurants ++ [rest_data] in
      reviews ← Py.get rest "reviews" (VList []);
      reviews ← Py.iter reviews;
      all_reviews ← reviews_loop rest reviews all_reviews;
      dataframe_loop enriched_data' restaurants all_reviews
  end.

(** The rows of [df_restaurants] and of [df_reviews], in order. *)
Definition create_dataframe (self : collector) (enriched_data : list value)
    : exn + (list value * list value) :=
  dataframe_loop enriched_data [] [].

End Collector.

(** ** Vocabulary of the specification *)

(** The identifier a listing is known by: its [place_id], as a set key. *)
Definition place_key (rest : value) : option Py.hkey :=
  match Py.getitem rest "place_id" ≫= Py.hash with
  | inr k => Some k
  | inl _ => None
  end.

(** Two listings that carry the same identifier. *)
Definition same_place (x y : value) : Prop :=
  is_Some (place_key x) ∧ place_key x = place_key y.

Global Instance same_place_dec x y : Decision (same_place x y).
Proof. unfold same_place. apply _. Defined.

(** Keeping, of every identifier, the listing that comes first: a listing
    stays, and everything later with its identifier goes. *)
Fixpoint first_seen (l : list value) : list value :=
  match l with
  | [] => []
  | x :: l' => x :: filter (λ y, ¬ same_place x y) (first_seen l')
  end.

(** The identifiers met in a list of listings. *)
Definition keys (l : list value) : gset Py.hkey :=
  list_to_set (omap place_key l).

(** A listing whose identifier is not in a set of identifiers. *)
Definition unseen (seen : gset Py.hkey) (s : value) : Prop :=
  ∀ k, place_key s = Some k → k ∉ seen.

Global Instance unseen_dec seen s : Decision (unseen seen s).
Proof.
  unfold unseen. destruct (place_key s) as [k|].
  - destruct (decide (k ∈ seen)) as [Hin|Hout].
    + right. intros H. by apply (H k).
    + left. by intros ? [= <-].
  - left. intros ? [=].
Defined.

(** The listings a recorded response carried: the [results] of a page
    whose status is OK. *)
Definition page_listings (e : event) : list value :=
  match e with
  | EGet _ _ (inr data) =>
      match Py.getitem data "status" with
      | inr status =>
          if Py.eq_str status "OK" then
            match Py.getitem data "results" ≫= Py.iter with
            | inr batch => batch
            | inl _ => []
            end
          else []
      | inl _ => []
      end
  | _ => []
  end.

(** All listings received during a stretch of the run, in arrival order. *)
Definition listings (evs : list event) : list value :=
  concat (page_listings <$> evs).

(** The identifier a detail request asks about. *)
Definition requested_place (self : collector) (e : event) : option value :=
  match e with
  | EGet url ((k, place_id) :: _) _ =>
      if String.eqb url (details_url self) && String.eqb k "place_id"
      then Some place_id else None
  | _ => None
  end.

(** The identifiers of the detail requests of a stretch of the run, in the
    order in which they were issued. *)
Definition detail_requests (self : collector) (evs : list event) : list value :=
  omap (requested_place self) evs.

(** The name printed for a listing: its [name], or ['Unknown']. *)
Definition listing_name (restaurant : value) : value :=
  match restaurant with
  | VDict d => default (VStr "Unknown") (d !! "name")
  | _ => VNone
  end.

(** The progress line printed before a listing is looked up. *)
Definition progress_line (total idx : Z) (restaurant : value) : event :=
  EPrint "[{}/{}] {}" [VInt idx; VInt total; listing_name restaurant].

(** A service whose answers do not depend on what happened before. *)
Definition history_independent (api : service) : Prop :=
  ∀ h h' url params, api h url params = api h' url params.

(** The coordinates a detail payload must carry. *)
Definition coordinates (details : value) : exn + value :=
  geometry ← Py.getitem details "geometry"; Py.getitem geometry "location".

(** A field of a record, [None] when it is missing. *)
Definition field (v : value) (k : string) : value :=
  match v with
  | VDict d => default VNone (d !! k)
  | _ => VNone
  end.

(** The identifier of a record or of a row. *)
Definition record_id (v : value) : option value :=
  match v with
  | VDict d => d !! "place_id"
  | _ => None
  end.

(** The reviews nested in an enriched record. *)
Definition reviews_of (rest : value) : list value :=
  match Py.get rest "reviews" (VList []) ≫= Py.iter with
  | inr l => l
  | inl _ => []
  end.

(** Every review of every record, next to the record that owns it. *)
Definition owned_reviews (enriched_data : list value) : list (value * value) :=
  rest ← enriched_data; review ← reviews_of rest; [(rest, review)].

Definition is_dict (v : value) : bool :=
  match v with VDict _ => true | _ => false end.

(** An enriched record as the exporter expects it: a dict with an
    identifier and a name whose reviews, if any, are a list of dicts. *)
Definition enriched_ok (rest : value) : bool :=
  match rest with
  | VDict d =>
      bool_decide (is_Some (d !! "place_id")) &&
      bool_decide (is_Some (d !! "name")) &&
      match default (VList []) (d !! "reviews") with
      | VList l => forallb is_dict l
      | _ => false
      end
  | _ => false
  end.

(** RestaurantRow: every field of the record except the nested reviews,
    plus the number of reviews collected. *)
Definition restaurant_row_of (rest row : value) : Prop :=
  ∃ d_rest d_row,
    rest = VDict d_rest ∧ row = VDict d_row ∧
    d_row !! "reviews" = None ∧
    d_row !! "num_reviews_collected" =
      Some (VInt (Z.of_nat (length (reviews_of rest)))) ∧
    ∀ k, k ≠ "reviews"%string → k ≠ "num_reviews_collected"%string →
         d_row !! k = d_rest !! k.

Definition review_row_keys : list string :=
  ["place_id"; "restaurant_name"; "author_name"; "rating"; "text"; "time";
   "language"; "relative_time"]%string.

(** ReviewRow: the owner's identifier and name, the review's own fields,
    and its relative time description under the key [relative_time]. *)
Definition review_row_of (rest review row : value) : Prop :=
  ∃ d_rest d_row,
    rest = VDict d_rest ∧ row = VDict d_row ∧
    is_Some (d_rest !! "place_id") ∧
    d_row !! "place_id" = d_rest !! "place_id" ∧
    is_Some (d_rest !! "name") ∧
    d_row !! "restaurant_name" = d_rest !! "name" ∧
    d_row !! "author_name" = Some (field review "author_name") ∧
    d_row !! "rating" = Some (field review "rating") ∧
    d_row !! "text" = Some (field review "text") ∧
    d_row !! "time" = Some (field review "time") ∧
    d_row !! "language" = Some (field review "language") ∧
    d_row !! "relative_time" = Some (field review "relative_time_description") ∧
    dom d_row = list_to_set review_row_keys.

(** ** Sample services and data *)

Module Sample.

Definition self : collector := init "KEY".

Definition stub (place_id name : string) : value :=
  VDict (list_to_map [("place_id", VStr place_id); ("name", VStr name)]%string).

(** [n] listings with the identifiers [prefix0], [prefix1], ... *)
Definition stubs (prefix : string) (n : nat) : list value :=
  (λ i, stub (prefix +:+ pretty i) "Bar") <$> seq 0 n.

Definition ok_page (results : list value) : gmap string value :=
  list_to_map [("status", VStr "OK"); ("results", VList results)]%string.

Definition first_page : value :=
  VDict (<["next_page_token"%string := VStr "T1"]> (ok_page (stubs "p" 20))).

Definition second_page : value := VDict (ok_page (stubs "q" 5)).

Definition zero_results : value :=
  VDict {["status"%string := VStr "ZERO_RESULTS"]}.

(** An area with two pages; the second one is served for the token. *)
Definition two_pages : service := λ _ _ params,
  match params with
  | (k, _) :: _ =>
      if String.eqb k "pagetoken" then inr second_page else inr first_page
  | [] => inl RequestException
  end.

(** An area without restaurants. *)
Definition nothing_here : service := λ _ _ _, inr zero_results.

(** Two areas that overlap: both return the listing X123. *)
Definition overlapping : service := λ _ _ params,
  match params with
  | (_, VStr location) :: _ =>
      if String.eqb location "41.3851,2.1734" then
        inr (VDict (ok_page [stub "X123" "Can Culleretes"; stub "Y1" "Pinotxo";
                             stub "X123" "Can Culleretes"]))
      else if String.eqb location "41.3874,2.1686" then
        inr (VDict (ok_page [stub "Z9" "El Xampanyet"; stub "X123" "Can Culleretes"]))
      else inr zero_results
  | _ => inl RequestException
  end.

Definition review : value :=
  VDict (list_to_map
    [("author_name", VStr "Montse"); ("rating", VInt 5);
     ("text", VStr "Molt bo"); ("time", VInt 1700000000);
     ("language", VStr "ca");
     ("relative_time_description", VStr "hace un mes");
     ("author_url", VStr "https://example.org/montse")]%string).

Definition location : value :=
  VDict (list_to_map
    [("lat", VFloat (Q2Qc (413851 # 10000)));
     ("lng", VFloat (Q2Qc (21734 # 10000)))]%string).

(** A full detail payload; it carries a [place_id] of its own. *)
Definition payload : gmap string value :=
  list_to_map
    [("name", VStr "Can Culleretes"); ("place_id", VStr "from-details");
     ("geometry", VDict {["location"%string := location]});
     ("rating", VFloat (Q2Qc (43 # 10)));
     ("types", VList [VStr "restaurant"; VStr "food"]);
     ("reviews", VList [review; review])]%string.

(** A payload with coordinates and a name only. *)
Definition sparse_payload : gmap string value :=
  list_to_map
    [("name", VStr "Pinotxo");
     ("geometry", VDict {["location"%string := location]})]%string.

(** A payload without coordinates. *)
Definition no_geometry : gmap string value :=
  {["name"%string := VStr "Nowhere"]}.

Definition ok_details (result : gmap string value) : value :=
  VDict (list_to_map [("status", VStr "OK"); ("result", VDict result)]%string).

Definition not_found : value := VDict {["status"%string := VStr "NOT_FOUND"]}.

(** The details endpoint: the answer depends on the identifier only. *)
Definition details : service := λ _ _ params,
  match params with
  | (_, VStr place_id) :: _ =>
      if String.eqb place_id "closed" then inr not_found
      else if String.eqb place_id "nowhere" then inr (ok_details no_geometry)
      else if String.eqb place_id "empty" then inr (ok_details ∅)
      else if String.eqb place_id "sparse" then inr (ok_details sparse_payload)
      else inr (ok_details payload)
  | _ => inl RequestException
  end.

Definition enriched (place_id : string) (reviews : list value) : value :=
  VDict (list_to_map
    [("place_id", VStr place_id); ("name", VStr "Can Culleretes");
     ("address", VNone); ("reviews", VList reviews)]%string).

(** Two enriched records with different identifiers. *)
Definition records : list value :=
  [enriched "X123" [review; review]; enriched "Y1" []].

(** The tables made from them. *)
Definition tables : list value * list value :=
  match create_dataframe self records with
  | inr out => out
  | inl _ => ([], [])
  end.

(** The collection run over the two overlapping areas. *)
Definition collection : res (list value) * list event :=
  collect_barcelona_restaurants overlapping 1 self 9 [].

(** What that run keeps. *)
Definition kept : list value :=
  [stub "X123" "Can Culleretes"; stub "Y1" "Pinotxo"; stub "Z9" "El Xampanyet"].

(** Enrichment of 50 listings with a cap of 10. *)
Definition capped : res (list value) * list event :=
  enrich_with_details_and_reviews details self (stubs "r" 50) (Some 10) [].

(** Enrichment of 3 listings with a cap of 0. *)
Definition uncapped : res (list value) * list event :=
  enrich_with_details_and_reviews details self (stubs "r" 3) (Some 0) [].

(** Whether a run ended normally. *)
Definition finished (run : res (list value) * list event) : bool :=
  match run.1 with
  | Ok _ => true
  | _ => false
  end.

(** The records of a finished run, none otherwise. *)
Definition returned (run : res (list value) * list event) : list value :=
  match run.1 with
  | Ok r => r
  | _ => []
  end.

End Sample.

(** ** Vocabulary of the further properties *)

(** A service that answers every area search with one more page: status
    OK, a batch of results and a continuation token. *)
Definition endless (api : service) (self : collector) : Prop :=
  ∀ h params, ∃ data results batch token,
    api h (nearbysearch self) params = inr data ∧
    Py.getitem data "status" = inr (VStr "OK") ∧
    Py.getitem data "results" = inr results ∧
    Py.iter results = inr batch ∧
    Py.getitem data "next_page_token" = inr token.

(** Whether an event is a request. *)
Definition is_request (e : event) : bool :=
  match e with
  | EGet _ _ _ => true
  | _ => false
  end.

(** The requests of a stretch of the run. *)
Definition requests (evs : list event) : list event :=
  filter (λ e, is_request e) evs.

(** The centre and the radius a first-page request searches around. *)
Definition searched (e : event) : option (value * value) :=
  match e with
  | EGet _ ((k1, location) :: (k2, radius) :: _) _ =>
      if String.eqb k1 "location" && String.eqb k2 "radius"
      then Some (location, radius) else None
  | _ => None
  end.

(** Whether an event is a pause of the given number of seconds. *)
Definition is_pause (seconds : Q) (e : event) : bool :=
  match e with
  | ESleep d => Qeq_bool d seconds
  | _ => false
  end.

(** The pauses of that length in a stretch of the run. *)
Definition pauses (seconds : Q) (evs : list event) : list event :=
  filter (λ e, is_pause seconds e) evs.

(** The twelve fields of an enriched record. *)
Definition record_keys : list string :=
  ["place_id"; "name"; "address"; "lat"; "lng"; "rating"; "total_reviews";
   "price_level"; "phone"; "website"; "types"; "reviews"]%string.

(** The shape of an enriched record: a dict with exactly the twelve
    fields, whose [types] is a string and whose [reviews] has a length. *)
Definition record_shape (record : value) : Prop :=
  ∃ d, record = VDict d ∧
    dom d = list_to_set record_keys ∧
    (∃ s, d !! "types" = Some (VStr s)) ∧
    (∃ reviews n, d !! "reviews" = Some reviews ∧ Py.len reviews = inr n).

(** The number of listings a cap outside the range of the input leaves:
    a negative cap cuts that many listings off the end. *)
Definition left_by_cap (restaurants : list value) (k : Z) : nat :=
  if k <? 0 then (length restaurants - Z.to_nat (- k))%nat
  else length restaurants.

(** The [num_reviews_collected] of a restaurant row. *)
Definition collected (row : value) : Z :=
  match field row "num_reviews_collected" with
  | VInt n => n
  | _ => 0
  end.

(** The sum of that column. *)
Definition total_collected (rows : list value) : Z :=
  foldr (λ row s, collected row + s) 0 rows.

(** The set key of an identifier, when it has one. *)
Definition key_of_id (id : option value) : option Py.hkey :=
  match id with
  | Some v => match Py.hash v with inr k => Some k | inl _ => None end
  | None => None
  end.

(** The value a request sends under a parameter name. *)
Definition param (params : list (string * value)) (name : string)
  : option value :=
  snd <$> List.find (λ kv, String.eqb kv.1 name) params.

(** A request that goes to one of the two endpoints of the collector and
    carries its key; other events are not concerned. *)
Definition addressed (self : collector) (e : event) : Prop :=
  match e with
  | EGet url params _ =>
      (url = nearbysearch self ∨ url = details_url self) ∧
      param params "key" = Some (VStr (api_key self))
  | _ => True
  end.

(** ** Sample services and data for the further properties *)

Module Case.

(** A service over its quota. *)
Definition over_limit : service :=
  λ _ _ _, inr (VDict {["status"%string := VStr "OVER_QUERY_LIMIT"]}).

(** A service that always has one more page. *)
Definition another_page : service := λ _ _ _, inr Sample.first_page.

(** A service whose answers carry no status. *)
Definition no_status : service :=
  λ _ _ _, inr (VDict {["error_message"%string := VStr "bad gateway"]}).

(** A listing without a [place_id]. *)
Definition nameless : value := VDict {["name"%string := VStr "Sense id"]}.

(** An area whose only listing has no [place_id]. *)
Definition broken_area : service :=
  λ _ _ _, inr (VDict (Sample.ok_page [nameless])).

(** The two-page search of the sample area. *)
Definition search : res (list value) * list event :=
  get_restaurants_in_area Sample.two_pages 2 Sample.self None 5000 [].

(** The search of the broken area. *)
Definition broken_search : res (list value) * list event :=
  get_restaurants_in_area broken_area 1 Sample.self (Some "41.3851,2.1734") 2000 [].


(** The duplicate filter on an area that brings one listing already kept
    and one new listing. *)
Definition filtered : gset Py.hkey * list value :=
  match remove_duplicates
          [Sample.stub "X123" "Can Culleretes"; Sample.stub "Y1" "Pinotxo"]
          (keys [Sample.stub "X123" "Can Culleretes"]) [] with
  | inr out => out
  | inl _ => (∅, [])
  end.

(** Enrichment of five listings with a cap of -2. *)
Definition cut_short : res (list value) * list event :=
  enrich_with_details_and_reviews Sample.details Sample.self
    (Sample.stubs "r" 5) (Some (-2)) [].

(** A payload with coordinates whose reviews are null. *)
Definition null_reviews : gmap string value :=
  list_to_map
    [("name", VStr "Pinotxo");
     ("geometry", VDict {["location"%string := Sample.location]});
     ("reviews", VNone)]%string.

(** The details endpoint answering with that payload. *)
Definition details_with_null_reviews : service :=
  λ _ _ _, inr (Sample.ok_details null_reviews).

(** Both endpoints of the sample service. *)
Definition places : service := λ h url params,
  if String.eqb url (details_url Sample.self)
  then Sample.details h url params
  else Sample.overlapping h url params.

(** The first two stages of the pipeline on it, in test mode. *)
Definition collection_run : res (list value) * list event :=
  collect_barcelona_restaurants places 1 Sample.self 9 [].

Definition enrichment_run : res (list value) * list event :=
  enrich_with_details_and_reviews places Sample.self
    (Sample.returned collection_run) (Some 10) [].

(** A record with a review and a name but no [place_id]. *)
Definition orphan : gmap string value :=
  list_to_map
    [("name", VStr "Pinotxo"); ("reviews", VList [Sample.review])]%string.

(** Records without reviews: one has no such field, one an empty list. *)
Definition bare : list value :=
  [VDict {["name"%string := VStr "Sense ressenyes"]};
   VDict {["reviews"%string := VList []]}].

End Case.

(** * Properties *)

(** ** Stepping through a computation *)

Lemma bind_ok {A B} (m : prog A) (k : A → prog B) t a t' :
  m t = (Ok a, t') → bind m k t = k a t'.
Proof. intros H. unfold bind. by rewrite H. Qed.

Lemma bind_raise {A B} (m : prog A) (k : A → prog B) t e t' :
  m t = (Raise e, t') → bind m k t = (Raise e, t').
Proof. intros H. unfold bind. by rewrite H. Qed.

Lemma lift_inr {A} (r : exn + A) a t : r = inr a → lift r t = (Ok a, t).
Proof. by intros ->. Qed.

Lemma lift_inl {A} (r : exn + A) e t : r = inl e → lift r t = (Raise e, t).
Proof. by intros ->. Qed.

Lemma requests_get_inr api url params t v :
  api t url params = inr v →
  requests_get api url params t = (Ok v, t ++ [EGet url params (inr v)]).
Proof. unfold requests_get. by intros ->. Qed.

Lemma requests_get_inl api url params t e :
  api t url params = inl e →
  requests_get api url params t = (Raise e, t ++ [EGet url params (inl e)]).
Proof. unfold requests_get. by intros ->. Qed.

Ltac step H := rewrite (bind_ok _ _ _ _ _ (requests_get_inr _ _ _ _ _ H)).
Ltac step_lift H := rewrite (bind_ok _ _ _ _ _ (lift_inr _ _ _ H)).

(** A value that has an entry under a string key is a dict. *)
Lemma getitem_inr v k x :
  Py.getitem v k = inr x → ∃ d, v = VDict d ∧ d !! k = Some x.
Proof.
  destruct v; simpl; try discriminate.
  destruct (d !! k) eqn:E; [|discriminate].
  intros [= ->]. eauto.
Qed.

Lemma getitem_contains v k x :
  Py.getitem v k = inr x → Py.contains k v = inr true.
Proof.
  intros (d & -> & Hk)%getitem_inr. simpl. f_equal.
  apply bool_decide_eq_true. by rewrite Hk.
Qed.

Lemma getitem_get v k x dflt :
  Py.getitem v k = inr x → Py.get v k dflt = inr x.
Proof. intros (d & -> & Hk)%getitem_inr. simpl. by rewrite Hk. Qed.

(** ** AreaSearch *)

Section AreaSearch.

Variable api : service.
Variable self : collector.

(** One turn of the paging loop, by the status of the page received. *)
Lemma area_loop_not_ok fuel params acc t data status :
  api t (nearbysearch self) params = inr data →
  Py.getitem data "status" = inr status →
  Py.eq_str status "OK" = false →
  area_loop api (S fuel) self params acc t =
    (Ok acc,
     t ++ [EGet (nearbysearch self) params (inr data);
           if Py.eq_str status "ZERO_RESULTS"
           then EPrint "No more results in this area" []
           else EPrint "Error: {}" [status]]).
Proof.
  intros Hget Hstatus Hne. cbn [area_loop].
  step Hget. step_lift Hstatus. rewrite Hne. cbn [negb].
  unfold bind at 1. unfold bind at 1. rewrite (lift_inr _ _ _ Hstatus).
  destruct (Py.eq_str status "ZERO_RESULTS").
  - unfold print, ret. by rewrite <- app_assoc.
  - step_lift (getitem_get _ _ _ VNone Hstatus).
    unfold print, ret. by rewrite <- app_assoc.
Qed.

Lemma area_loop_last_page fuel params acc t data results batch :
  api t (nearbysearch self) params = inr data →
  Py.getitem data "status" = inr (VStr "OK") →
  Py.getitem data "results" = inr results →
  Py.iter results = inr batch →
  Py.contains "next_page_token" data = inr false →
  area_loop api (S fuel) self params acc t =
    (Ok (acc ++ batch), t ++ [EGet (nearbysearch self) params (inr data)]).
Proof.
  intros Hget Hstatus Hres Hiter Htok. cbn [area_loop].
  step Hget. step_lift Hstatus. cbn [Py.eq_str String.eqb Ascii.eqb Bool.eqb negb].
  step_lift Hres. step_lift Hiter. step_lift Htok. done.
Qed.

Lemma area_loop_next_page fuel params acc t data results batch token :
  api t (nearbysearch self) params = inr data →
  Py.getitem data "status" = inr (VStr "OK") →
  Py.getitem data "results" = inr results →
  Py.iter results = inr batch →
  Py.getitem data "next_page_token" = inr token →
  area_loop api (S fuel) self params acc t =
    area_loop api fuel self (next_page_params self token) (acc ++ batch)
      (t ++ [EGet (nearbysearch self) params (inr data); ESleep 2]).
Proof.
  intros Hget Hstatus Hres Hiter Htok. cbn [area_loop].
  step Hget. step_lift Hstatus. cbn [Py.eq_str String.eqb Ascii.eqb Bool.eqb negb].
  step_lift Hres. step_lift Hiter. step_lift (getitem_contains _ _ _ Htok).
  unfold bind at 1, sleep at 1. step_lift Htok.
  by rewrite <- app_assoc.
Qed.

(** C7: when the first page of an area search comes back with status
    ZERO_RESULTS, the search returns the empty list; it ends normally,
    after that single request and one log line. *)
Theorem zero_results_first_page_yields_no_stubs
    (fuel : nat) (location : option string) (radius : Z)
    (t : list event) (data : value) :
  api t (nearbysearch self) (first_page_params self (default (barcelona_coords self) location) radius)
    = inr data →
  Py.getitem data "status" = inr (VStr "ZERO_RESULTS") →
  get_restaurants_in_area api (S fuel) self location radius t =
    (Ok [],
     t ++ [EGet (nearbysearch self)
             (first_page_params self (default (barcelona_coords self) location) radius) (inr data);
           EPrint "No more results in this area" []]).
Proof.
  intros Hget Hstatus. unfold get_restaurants_in_area.
  change (match location with Some l => l | None => barcelona_coords self end)
    with (default (barcelona_coords self) location).
  by rewrite (area_loop_not_ok _ _ _ _ _ _ Hget Hstatus).
Qed.

(** C6: a first page with status OK, 20 stubs and a continuation token,
    then (once at least 2 seconds have passed) a second page with status
    OK, 5 stubs and no token: the search returns the 25 stubs, first
    page first, and it made exactly two requests with one pause of at
    least 2 seconds between receiving the token and asking again. *)
Theorem two_pages_yield_25_stubs_after_one_delay
    (fuel : nat) (location : option string) (radius : Z) (t : list event)
    (data1 data2 token : value) (batch1 batch2 : list value) :
  let url := nearbysearch self in
  let page1 := first_page_params self (default (barcelona_coords self) location) radius in
  let page2 := next_page_params self token in
  api t url page1 = inr data1 →
  Py.getitem data1 "status" = inr (VStr "OK") →
  Py.getitem data1 "results" = inr (VList batch1) →
  Py.getitem data1 "next_page_token" = inr token →
  length batch1 = 20%nat →
  (∀ delay, (2 <= delay)%Q →
     api (t ++ [EGet url page1 (inr data1); ESleep delay]) url page2
       = inr data2) →
  Py.getitem data2 "status" = inr (VStr "OK") →
  Py.getitem data2 "results" = inr (VList batch2) →
  Py.contains "next_page_token" data2 = inr false →
  length batch2 = 5%nat →
  ∃ stubs delay,
    get_restaurants_in_area api (S (S fuel)) self location radius t =
      (Ok stubs,
       t ++ [EGet url page1 (inr data1); ESleep delay;
             EGet url page2 (inr data2)]) ∧
    stubs = batch1 ++ batch2 ∧
    length stubs = 25%nat ∧
    (2 <= delay)%Q.
Proof.
  intros url page1 page2 Hget1 Hst1 Hres1 Htok1 Hlen1 Hget2 Hst2 Hres2 Htok2 Hlen2.
  exists (batch1 ++ batch2), 2%Q.
  split; [|split; [done|split; [rewrite length_app; lia|apply Qle_refl]]].
  specialize (Hget2 2%Q (Qle_refl _)).
  unfold get_restaurants_in_area.
  change (match location with Some l => l | None => barcelona_coords self end)
    with (default (barcelona_coords self) location).
  rewrite (area_loop_next_page _ _ _ _ _ _ _ _ Hget1 Hst1 Hres1 eq_refl Htok1).
  rewrite (area_loop_last_page _ _ _ _ _ _ _ Hget2 Hst2 Hres2 eq_refl Htok2).
  by rewrite <- (app_assoc t).
Qed.

End AreaSearch.

(** ** Inverting a computation that ended normally *)

Lemma bind_Ok_inv {A B} (m : prog A) (k : A → prog B) t b t' :
  bind m k t = (Ok b, t') → ∃ a t1, m t = (Ok a, t1) ∧ k a t1 = (Ok b, t').
Proof.
  unfold bind. destruct (m t) as [[a| |] t1]; [eauto|discriminate..].
Qed.

Lemma lift_Ok_inv {A} (r : exn + A) t a t' :
  lift r t = (Ok a, t') → r = inr a ∧ t' = t.
Proof. destruct r; simpl; intros [= -> ->]; auto. Qed.

Lemma requests_get_Ok_inv api url params t v t' :
  requests_get api url params t = (Ok v, t') →
  api t url params = inr v ∧ t' = t ++ [EGet url params (inr v)].
Proof.
  unfold requests_get. destruct (api t url params); intros [= <- <-]; auto.
Qed.

Lemma ret_Ok_inv {A} (a b : A) t t' : ret a t = (Ok b, t') → a = b ∧ t' = t.
Proof. by intros [= -> ->]. Qed.

Lemma print_Ok_inv text args t u t' :
  print text args t = (Ok u, t') → t' = t ++ [EPrint text args].
Proof. by intros [= <-]. Qed.

Lemma sleep_Ok_inv seconds t u t' :
  sleep seconds t = (Ok u, t') → t' = t ++ [ESleep seconds].
Proof. by intros [= <-]. Qed.

Ltac invert_run :=
  repeat match goal with
  | H : bind _ _ _ = (Ok _, _) |- _ =>
      apply bind_Ok_inv in H; destruct H as (? & ? & ? & H)
  | H : lift _ _ = (Ok _, _) |- _ =>
      apply lift_Ok_inv in H; destruct H as [? ->]
  | H : requests_get _ _ _ _ = (Ok _, _) |- _ =>
      apply requests_get_Ok_inv in H; destruct H as [? ->]
  | H : ret _ _ = (Ok _, _) |- _ =>
      apply ret_Ok_inv in H; destruct H as [<- ->]
  | H : print _ _ _ = (Ok _, _) |- _ => apply print_Ok_inv in H as ->
  | H : sleep _ _ = (Ok _, _) |- _ => apply sleep_Ok_inv in H as ->
  end.

(** ** Deduplicator *)

Lemma listings_app evs1 evs2 :
  listings (evs1 ++ evs2) = listings evs1 ++ listings evs2.
Proof. unfold listings. by rewrite fmap_app, concat_app. Qed.

Lemma listings_nil : listings [] = [].
Proof. done. Qed.

Lemma listings_cons e evs : listings (e :: evs) = page_listings e ++ listings evs.
Proof. done. Qed.

(** *** Keeping the first listing of every identifier *)

Lemma keys_cons_Some x l k :
  place_key x = Some k → keys (x :: l) = {[k]} ∪ keys l.
Proof. intros H. unfold keys. simpl. by rewrite H. Qed.

Lemma keys_cons_None x l : place_key x = None → keys (x :: l) = keys l.
Proof. intros H. unfold keys. simpl. by rewrite H. Qed.

Lemma unseen_Some seen s k : place_key s = Some k → unseen seen s ↔ k ∉ seen.
Proof.
  intros Hs. unfold unseen. rewrite Hs. split; [by intros H; apply H|].
  by intros ? ? [= <-].
Qed.

Lemma keys_singleton x k : place_key x = Some k → keys [x] = {[k]}.
Proof. intros H. unfold keys. simpl. rewrite H. simpl. set_solver. Qed.

Lemma keys_app l1 l2 : keys (l1 ++ l2) = keys l1 ∪ keys l2.
Proof. unfold keys. by rewrite omap_app, list_to_set_app_L. Qed.

Lemma filter_unseen_empty (l : list value) : filter (unseen ∅) l = l.
Proof.
  induction l as [|x l IH]; [done|].
  rewrite filter_cons_True; [by rewrite IH|]. intros k _. set_solver.
Qed.

Lemma filter_unseen_unseen seen1 seen2 (l : list value) :
  filter (unseen seen1) (filter (unseen seen2) l) = filter (unseen (seen1 ∪ seen2)) l.
Proof.
  rewrite list_filter_filter. apply list_filter_iff. intros y. unfold unseen.
  split.
  - intros [H1 H2] k Hk. apply not_elem_of_union. eauto.
  - intros H. split; intros k Hk; by destruct (not_elem_of_union k seen1 seen2) as [[??] _];
      [apply H|].
Qed.

Lemma filter_not_same_place x (l : list value) :
  filter (λ y, ¬ same_place x y) l = filter (unseen (keys [x])) l.
Proof.
  apply list_filter_iff. intros y. unfold same_place, unseen.
  destruct (place_key x) as [k|] eqn:Hx.
  - rewrite (keys_cons_Some _ _ _ Hx). split.
    + intros H k' Hy Hin. apply H. split; [done|].
      rewrite Hy. f_equal.
      by apply elem_of_union in Hin as [->%elem_of_singleton|?%elem_of_empty].
    + intros H [_ Hy]. apply (H k); [done|].
      apply elem_of_union_l. by apply elem_of_singleton.
  - rewrite (keys_cons_None _ _ Hx). split.
    + intros _ k' _. set_solver.
    + intros _ [[? [=]] _].
Qed.

Lemma first_seen_app l1 l2 :
  first_seen (l1 ++ l2) =
  first_seen l1 ++ filter (unseen (keys l1)) (first_seen l2).
Proof.
  induction l1 as [|x l1 IH]; simpl.
  - by rewrite filter_unseen_empty.
  - rewrite IH, filter_app. f_equal. f_equal.
    rewrite (filter_not_same_place x (filter _ _)), filter_unseen_unseen.
    by rewrite <- keys_app.
Qed.

Lemma first_seen_sublist l : first_seen l `sublist_of` l.
Proof.
  induction l as [|x l IH]; simpl; [done|].
  apply sublist_skip. etrans; [apply sublist_filter|done].
Qed.

(** Among listings that all carry an identifier, no identifier is kept
    twice. *)
Lemma first_seen_NoDup l :
  Forall (λ s, is_Some (place_key s)) l → NoDup (place_key <$> first_seen l).
Proof.
  induction 1 as [|x l Hx Hl IH]; simpl; [constructor|].
  apply NoDup_cons. split.
  - intros (y & Hxy & [Hns _]%list_elem_of_filter)%list_elem_of_fmap.
    by apply Hns.
  - apply (sublist_NoDup _ _ IH), fmap_sublist, sublist_filter.
Qed.

(** ... and every identifier received is kept. *)
Lemma first_seen_complete l s :
  Forall (λ s, is_Some (place_key s)) l → s ∈ l →
  ∃ s', s' ∈ first_seen l ∧ same_place s' s.
Proof.
  induction 1 as [|x l Hx Hl IH]; simpl.
  { by intros ?%elem_of_nil. }
  intros [->|Hs]%elem_of_cons.
  - exists x. split; [left|done].
  - destruct (IH Hs) as (s' & Hs' & Hsame).
    destruct (decide (same_place x s')) as [Hx'|Hx'].
    + exists x. split; [left|]. destruct Hx' as [? Hx'], Hsame as [? Hsame].
      split; [done|congruence].
    + exists s'. split; [|done]. right. by apply list_elem_of_filter.
Qed.

Lemma filter_same_place_absent (r : list value) s :
  place_key s ∉ place_key <$> r → filter (λ y, same_place y s) r = [].
Proof.
  induction r as [|y r IH]; [done|]. simpl. intros Hs.
  rewrite filter_cons_False.
  - apply IH. intros ?. apply Hs. by right.
  - intros [_ Hy]. apply Hs. rewrite Hy. left.
Qed.

(** In a list without repeated identifiers, the listings with a given
    identifier are just the one. *)
Lemma filter_same_place_NoDup (r : list value) s' s :
  NoDup (place_key <$> r) → s' ∈ r → same_place s' s →
  filter (λ y, same_place y s) r = [s'].
Proof.
  intros Hnd Hin Hsame. induction r as [|y r IH]; simpl in *.
  { by apply elem_of_nil in Hin. }
  apply NoDup_cons in Hnd as [Hy Hnd].
  apply elem_of_cons in Hin as [<-|Hin].
  - rewrite filter_cons_True by done. f_equal.
    apply filter_same_place_absent. destruct Hsame as [_ <-]. done.
  - rewrite filter_cons_False; [by apply IH|].
    intros [_ Hyk]. apply Hy. destruct Hsame as [_ Heq]. rewrite Hyk, <- Heq.
    by apply list_elem_of_fmap_2.
Qed.

(** The loop with the [seen_place_ids] set keeps, of the first listing of
    every identifier, those not seen in an earlier area. *)
Lemma remove_duplicates_first_seen restaurants seen new seen' new' :
  remove_duplicates restaurants seen new = inr (seen', new') →
  Forall (λ s, is_Some (place_key s)) restaurants ∧
  seen' = seen ∪ keys restaurants ∧
  new' = new ++ filter (unseen seen) (first_seen restaurants).
Proof.
  revert seen new. induction restaurants as [|rest restaurants IH];
    intros seen new Hrun; simpl in Hrun.
  { injection Hrun as <- <-. split; [constructor|].
    split; [unfold keys; set_solver|by rewrite app_nil_r]. }
  destruct (Py.getitem rest "place_id") as [|place_id] eqn:Hid; [done|].
  simpl in Hrun. destruct (Py.hash place_id) as [|k] eqn:Hk; [done|].
  simpl in Hrun.
  assert (Hkey : place_key rest = Some k).
  { unfold place_key. rewrite Hid. simpl. by rewrite Hk. }
  rewrite (keys_cons_Some _ _ _ Hkey). simpl.
  destruct (decide (k ∉ seen)) as [Hnew|Hold].
  - apply IH in Hrun as (Hall & -> & ->).
    split; [constructor; [by rewrite Hkey|done]|].
    split; [set_solver|].
    rewrite filter_cons_True by (by apply (unseen_Some _ _ _ Hkey)).
    rewrite (filter_not_same_place rest), filter_unseen_unseen.
    rewrite (keys_singleton _ _ Hkey).
    by rewrite <- app_assoc.
  - apply IH in Hrun as (Hall & -> & ->).
    split; [constructor; [by rewrite Hkey|done]|].
    apply dec_stable in Hold.
    split; [set_solver|].
    assert (Hseen : ¬ unseen seen rest) by (rewrite (unseen_Some _ _ _ Hkey); auto).
    rewrite filter_cons_False by done.
    rewrite (filter_not_same_place rest), filter_unseen_unseen.
    rewrite (keys_singleton _ _ Hkey).
    by replace (seen ∪ {[k]}) with seen by set_solver.
Qed.

Section Deduplicator.

Variable api : service.
Variable self : collector.

(** What an area search returns is what its pages carried. *)
Lemma area_loop_listings fuel params acc t r t' :
  area_loop api fuel self params acc t = (Ok r, t') →
  ∃ evs, t' = t ++ evs ∧ r = acc ++ listings evs.
Proof.
  revert params acc t. induction fuel as [|fuel IH]; intros params acc t Hrun.
  { discriminate. }
  cbn [area_loop] in Hrun. invert_run.
  match goal with H : api _ _ _ = inr ?d |- _ => rename d into data, H into Hget end.
  match goal with H : Py.getitem data "status" = inr ?s |- _ =>
    rename s into status, H into Hstatus end.
  set (e := EGet (nearbysearch self) params (inr data)) in *.
  destruct (Py.eq_str status "OK") eqn:Hok; cbn [negb] in Hrun.
  - invert_run.
    match goal with H : Py.getitem data "results" = inr ?s |- _ =>
      rename s into results, H into Hres end.
    match goal with H : Py.iter results = inr ?s |- _ =>
      rename s into batch, H into Hiter end.
    assert (Hpage : page_listings e = batch).
    { simpl. rewrite Hstatus, Hok, Hres. simpl. by rewrite Hiter. }
    match goal with H : Py.contains _ _ = inr ?b |- _ => destruct b end.
    + invert_run. apply IH in Hrun as (evs & -> & ->).
      exists (e :: ESleep 2 :: evs). rewrite <- !app_assoc. split; [done|].
      by rewrite !listings_cons, Hpage.
    + invert_run. exists [e]. split; [done|].
      by rewrite listings_cons, Hpage, listings_nil, app_nil_r.
  - assert (Hpage : page_listings e = []).
    { simpl. by rewrite Hstatus, Hok. }
    invert_run.
    match goal with H : (if ?c then _ else _) _ = _ |- _ => destruct c end;
      invert_run; eexists (e :: [_]); rewrite <- !app_assoc; (split; [done|]);
      by rewrite !listings_cons, Hpage, listings_nil, app_nil_r.
Qed.

Lemma collect_loop_first_seen fuel points all seen t r t' :
  collect_loop api fuel self points all seen t = (Ok r, t') →
  ∃ evs, t' = t ++ evs ∧
    Forall (λ s, is_Some (place_key s)) (listings evs) ∧
    r = all ++ filter (unseen seen) (first_seen (listings evs)).
Proof.
  revert all seen t.
  induction points as [|[location neighborhood] points IH];
    intros all seen t Hrun; cbn [collect_loop] in Hrun.
  { invert_run. exists []. rewrite !app_nil_r. by split. }
  invert_run.
  match goal with H : get_restaurants_in_area _ _ _ _ _ _ = _ |- _ =>
    apply area_loop_listings in H as (evs1 & -> & ->) end.
  match goal with H : remove_duplicates _ _ _ = inr ?p |- _ =>
    destruct p as [seen1 new];
    apply remove_duplicates_first_seen in H as (Hkeys & -> & ->) end.
  cbn [fst snd] in Hrun. apply IH in Hrun as (evs2 & -> & Hkeys2 & ->).
  eexists (evs1 ++ _ :: _ :: _ :: evs2). rewrite <- !app_assoc.
  split; [done|].
  rewrite listings_app, !listings_cons. simpl.
  split; [by apply Forall_app|].
  by rewrite first_seen_app, filter_app, filter_unseen_unseen.
Qed.

(** Listings that all carry a hashable identifier pass the duplicate
    filter without an exception. *)
Lemma remove_duplicates_total restaurants seen new :
  Forall (λ s, is_Some (place_key s)) restaurants →
  ∃ out, remove_duplicates restaurants seen new = inr out.
Proof.
  intros Hkeys. revert seen new.
  induction Hkeys as [|rest restaurants [k Hk] _ IH]; intros seen new; simpl.
  { eauto. }
  unfold place_key in Hk.
  destruct (Py.getitem rest "place_id") as [|place_id]; [done|]. simpl in *.
  destruct (Py.hash place_id); [done|]. simpl.
  destruct (decide _); apply IH.
Qed.

(** When every area search comes back, within the pages allowed, with
    listings that carry a hashable identifier, the collection comes back
    too. *)
Lemma collect_loop_returns fuel points all seen t :
  (∀ t location, ∃ restaurants t',
     get_restaurants_in_area api fuel self (Some location) 2000 t
       = (Ok restaurants, t') ∧
     Forall (λ s, is_Some (place_key s)) restaurants) →
  ∃ r t', collect_loop api fuel self points all seen t = (Ok r, t').
Proof.
  intros Hsearch. revert all seen t.
  induction points as [|[location neighborhood] points IH]; intros all seen t;
    cbn [collect_loop].
  { by eexists _, _. }
  destruct (Hsearch t location) as (restaurants & t1 & Hrun & Hkeys).
  rewrite (bind_ok _ _ _ _ _ Hrun).
  destruct (remove_duplicates_total restaurants seen [] Hkeys) as [out Hout].
  step_lift Hout. unfold bind at 1 2 3, print, sleep. apply IH.
Qed.

Lemma collect_returns fuel num_areas t :
  (∀ t location, ∃ restaurants t',
     get_restaurants_in_area api fuel self (Some location) 2000 t
       = (Ok restaurants, t') ∧
     Forall (λ s, is_Some (place_key s)) restaurants) →
  ∃ r t', collect_barcelona_restaurants api fuel self num_areas t = (Ok r, t').
Proof.
  intros Hsearch. unfold collect_barcelona_restaurants.
  destruct (collect_loop_returns fuel search_points [] ∅ t Hsearch)
    as (r & t' & Hrun).
  rewrite (bind_ok _ _ _ _ _ Hrun). by eexists _, _.
Qed.

(** C1: whatever pages the area searches received, the collection that
    [collect_barcelona_restaurants] returns is the list of all listings
    received, in arrival order, with only the first listing of every
    place identifier kept: no identifier is kept twice, every listing
    received has exactly one kept listing with its identifier, and the
    kept listings are in the order in which they arrived. *)
Theorem collect_keeps_each_place_id_once_in_first_seen_order
    (fuel : nat) (num_areas : Z) (t t' : list event) (r : list value) :
  collect_barcelona_restaurants api fuel self num_areas t = (Ok r, t') →
  ∃ evs, t' = t ++ evs ∧
    r = first_seen (listings evs) ∧
    NoDup (place_key <$> r) ∧
    (∀ s, s ∈ listings evs →
       ∃ s', filter (λ y, same_place y s) r = [s']) ∧
    r `sublist_of` listings evs.
Proof.
  unfold collect_barcelona_restaurants. intros Hrun. invert_run.
  match goal with H : collect_loop _ _ _ _ _ _ _ = _ |- _ =>
    apply collect_loop_first_seen in H as (evs & -> & Hkeys & ->) end.
  rewrite filter_unseen_empty, app_nil_l.
  eexists (evs ++ [_; _; _; _]). rewrite <- !app_assoc. split; [done|].
  rewrite listings_app, !listings_cons, listings_nil. simpl.
  rewrite app_nil_r.
  assert (Hnd := first_seen_NoDup _ Hkeys).
  split; [done|]. split; [done|]. split; [|apply first_seen_sublist].
  intros s Hs. destruct (first_seen_complete _ _ Hkeys Hs) as (s' & Hs' & Hsame).
  exists s'. by apply filter_same_place_NoDup.
Qed.

End Deduplicator.

(** ** Exporter *)

Lemma get_inr v k dflt x :
  Py.get v k dflt = inr x → ∃ d, v = VDict d ∧ x = default dflt (d !! k).
Proof. destruct v; simpl; try discriminate. intros [= <-]. eauto. Qed.

Lemma get_field v k x : Py.get v k VNone = inr x → x = field v k.
Proof. by intros (d & -> & ->)%get_inr. Qed.

Lemma string_length_chars s : String.length s = length (Py.chars s).
Proof.
  unfold Py.chars. rewrite length_fmap.
  induction s as [|c s IH]; simpl; congruence.
Qed.

(** [len] counts what iteration yields. *)
Lemma len_iter v n l : Py.len v = inr n → Py.iter v = inr l → n = Z.of_nat (length l).
Proof.
  destruct v; simpl; try discriminate; intros [= <-] [= <-]; f_equal.
  - apply string_length_chars.
  - by rewrite length_fmap, length_map_to_list.
Qed.

Lemma restaurant_row_inr rest row :
  restaurant_row rest = inr row →
  Py.get rest "reviews" (VList []) ≫= Py.iter = inr (reviews_of rest) ∧
  restaurant_row_of rest row.
Proof.
  unfold restaurant_row. destruct rest as [| | | | | |d]; try discriminate.
  cbn [Py.items Py.get mbind exn_bind].
  destruct (Py.len _) as [|n] eqn:Hlen; [discriminate|]. intros [= <-].
  assert (Hiter : ∃ l, Py.iter (default (VList []) (d !! "reviews")) = inr l).
  { destruct (default _ _); try discriminate; simpl; eauto. }
  destruct Hiter as [l Hiter].
  assert (Hl : reviews_of (VDict d) = l).
  { unfold reviews_of. simpl. by rewrite Hiter. }
  split; [by rewrite Hl|].
  exists d, (<["num_reviews_collected":=VInt n]> (filter (λ kv, kv.1 ≠ "reviews") d)).
  split; [done|]. split; [done|].
  split; [|split].
  - rewrite lookup_insert_ne by done. apply map_lookup_filter_None. right.
    intros x _ Hk. by apply Hk.
  - rewrite lookup_insert_eq, Hl. do 2 f_equal. by eapply len_iter.
  - intros k Hk1 Hk2. rewrite lookup_insert_ne by done.
    destruct (d !! k) as [x|] eqn:Hx.
    + by apply map_lookup_filter_Some.
    + apply map_lookup_filter_None. by left.
Qed.

Lemma review_row_inr rest review row :
  review_row rest review = inr row → review_row_of rest review row.
Proof.
  unfold review_row.
  destruct (Py.getitem rest "place_id") as [|place_id] eqn:Hid; [discriminate|].
  destruct (Py.getitem rest "name") as [|name] eqn:Hname; [discriminate|].
  cbn [mbind exn_bind].
  repeat match goal with
  | |- context [Py.get review ?k VNone] =>
      let H := fresh "Hget" in
      destruct (Py.get review k VNone) eqn:H; [discriminate|];
      apply get_field in H; subst; cbn [mbind exn_bind]
  end.
  intros [= <-].
  apply getitem_inr in Hid as (d & -> & Hid).
  apply getitem_inr in Hname as (d' & [= <-] & Hname).
  eexists d, _. split; [done|]. split; [done|].
  rewrite Hid, Hname.
  repeat (split; [by eauto|]).
  by rewrite !dom_insert_L, dom_empty_L.
Qed.

Lemma reviews_loop_inr rest reviews all_reviews all_reviews' :
  reviews_loop rest reviews all_reviews = inr all_reviews' →
  ∃ rows, all_reviews' = all_reviews ++ rows ∧
          Forall2 (review_row_of rest) reviews rows.
Proof.
  revert all_reviews. induction reviews as [|review reviews IH];
    intros all_reviews; simpl.
  { intros [= <-]. exists []. by rewrite app_nil_r. }
  destruct (review_row rest review) as [|row] eqn:Hrow; [discriminate|].
  cbn [mbind exn_bind]. intros (rows & -> & Hrows)%IH.
  exists (row :: rows). rewrite <- app_assoc. split; [done|].
  constructor; [by apply review_row_inr|done].
Qed.

Lemma owned_reviews_cons rest enriched_data :
  owned_reviews (rest :: enriched_data) =
  ((λ review, (rest, review)) <$> reviews_of rest) ++ owned_reviews enriched_data.
Proof.
  unfold owned_reviews. by rewrite bind_cons.
Qed.

Lemma dataframe_loop_inr enriched_data restaurants all_reviews restaurants' all_reviews' :
  dataframe_loop enriched_data restaurants all_reviews = inr (restaurants', all_reviews') →
  ∃ rows review_rows,
    restaurants' = restaurants ++ rows ∧
    all_reviews' = all_reviews ++ review_rows ∧
    Forall2 restaurant_row_of enriched_data rows ∧
    Forall2 (λ p row, review_row_of p.1 p.2 row)
      (owned_reviews enriched_data) review_rows.
Proof.
  revert restaurants all_reviews.
  induction enriched_data as [|rest enriched_data IH];
    intros restaurants all_reviews; cbn [dataframe_loop].
  { intros [= <- <-]. exists [], []. rewrite !app_nil_r. repeat split; constructor. }
  destruct (restaurant_row rest) as [|row] eqn:Hrow; [discriminate|].
  cbn [mbind exn_bind].
  apply restaurant_row_inr in Hrow as [Hiter Hrow].
  destruct (Py.get rest "reviews" (VList [])) as [|reviews]; [discriminate|].
  cbn [mbind exn_bind] in *. rewrite Hiter. cbn [mbind exn_bind].
  destruct (reviews_loop _ _ _) as [|all_reviews1] eqn:Hrev; [discriminate|].
  cbn [mbind exn_bind].
  apply reviews_loop_inr in Hrev as (revs1 & -> & Hrevs1).
  intros (rows & revs2 & -> & -> & Hrows & Hrevs2)%IH.
  exists (row :: rows), (revs1 ++ revs2). rewrite <- !app_assoc.
  split; [done|]. split; [done|]. split; [by constructor|].
  rewrite owned_reviews_cons. apply Forall2_app; [|done].
  by apply Forall2_fmap_l.
Qed.

Lemma enriched_ok_true rest :
  enriched_ok rest = true →
  ∃ d place_id name l,
    rest = VDict d ∧ d !! "place_id" = Some place_id ∧ d !! "name" = Some name ∧
    default (VList []) (d !! "reviews") = VList l ∧ forallb is_dict l = true.
Proof.
  destruct rest as [| | | | | |d]; try discriminate. simpl.
  intros [[[place_id Hid]%bool_decide_eq_true [name Hname]%bool_decide_eq_true]%andb_true_iff Hrev]%andb_true_iff.
  destruct (default _ _) as [| | | | |l|] eqn:Hd; try discriminate.
  by exists d, place_id, name, l.
Qed.

Lemma review_row_total d place_id name review :
  d !! "place_id" = Some place_id → d !! "name" = Some name →
  is_dict review = true →
  ∃ row, review_row (VDict d) review = inr row.
Proof.
  intros Hid Hname Hrev. destruct review; try discriminate.
  unfold review_row. simpl. rewrite Hid, Hname. simpl. eauto.
Qed.

Lemma reviews_loop_total d place_id name reviews all_reviews :
  d !! "place_id" = Some place_id → d !! "name" = Some name →
  forallb is_dict reviews = true →
  ∃ all_reviews', reviews_loop (VDict d) reviews all_reviews = inr all_reviews'.
Proof.
  intros Hid Hname. revert all_reviews.
  induction reviews as [|review reviews IH]; intros all_reviews; cbn [reviews_loop forallb].
  { eauto. }
  intros [Hrev Hall]%andb_true_iff.
  destruct (review_row_total _ _ _ _ Hid Hname Hrev) as [row ->].
  cbn [mbind exn_bind]. by apply IH.
Qed.

Lemma dataframe_loop_total enriched_data restaurants all_reviews :
  Forall (λ rest, enriched_ok rest = true) enriched_data →
  ∃ out, dataframe_loop enriched_data restaurants all_reviews = inr out.
Proof.
  intros Hok. revert restaurants all_reviews.
  induction Hok as [|rest enriched_data Hrest _ IH];
    intros restaurants all_reviews; cbn [dataframe_loop].
  { eauto. }
  apply enriched_ok_true in Hrest as (d & place_id & name & l & -> & Hid & Hname & Hrev & Hl).
  unfold restaurant_row. cbn [Py.items Py.get mbind exn_bind].
  rewrite Hrev. cbn [Py.len Py.iter mbind exn_bind].
  destruct (reviews_loop_total _ _ _ l all_reviews Hid Hname Hl) as [all_reviews' ->].
  cbn [mbind exn_bind]. apply IH.
Qed.

(** C4: from enriched records (dicts with an identifier, a name and a
    list of review dicts) [create_dataframe] returns two tables: one
    RestaurantRow per record, in order, holding every field of the record
    except [reviews] plus [num_reviews_collected], the length of the
    record's review list; and one ReviewRow per nested review, in order,
    holding the owner's [place_id] and name, the review's author name,
    rating, text, time and language, and the review's
    [relative_time_description] under the key [relative_time]. *)
Theorem create_dataframe_splits_records_into_rows
    (self : collector) (enriched_data : list value) :
  Forall (λ rest, enriched_ok rest = true) enriched_data →
  ∃ restaurants all_reviews,
    create_dataframe self enriched_data = inr (restaurants, all_reviews) ∧
    Forall2 restaurant_row_of enriched_data restaurants ∧
    Forall2 (λ p row, review_row_of p.1 p.2 row)
      (owned_reviews enriched_data) all_reviews.
Proof.
  intros Hok. unfold create_dataframe.
  destruct (dataframe_loop_total _ [] [] Hok) as [[restaurants all_reviews] Hrun].
  exists restaurants, all_reviews. split; [done|].
  by apply dataframe_loop_inr in Hrun as (? & ? & -> & -> & ? & ?).
Qed.

Lemma restaurant_row_of_id rest row :
  restaurant_row_of rest row → record_id row = record_id rest.
Proof. intros (d_rest & d_row & -> & -> & _ & _ & Hk). simpl. by apply Hk. Qed.

Lemma review_row_of_id rest review row :
  review_row_of rest review row →
  is_Some (record_id row) ∧ record_id row = record_id rest.
Proof.
  intros (d_rest & d_row & -> & -> & Hsome & Hid & _). simpl. by rewrite Hid.
Qed.

Lemma owned_reviews_owner enriched_data rest review :
  (rest, review) ∈ owned_reviews enriched_data → rest ∈ enriched_data.
Proof.
  unfold owned_reviews.
  intros (rest' & (review' & [= -> ->]%list_elem_of_singleton & _)%list_elem_of_bind & Hin)%list_elem_of_bind.
  done.
Qed.

(** C2: in the tables [create_dataframe] returns for records with pairwise
    distinct identifiers, no two RestaurantRows share an identifier, and
    the [place_id] of every ReviewRow is the identifier of exactly one
    RestaurantRow: there is a row of the restaurant table with it, and any
    row of that table with it is that same row. *)
Theorem review_rows_reference_exactly_one_restaurant_row
    (self : collector) (enriched_data restaurants all_reviews : list value) :
  create_dataframe self enriched_data = inr (restaurants, all_reviews) →
  NoDup (record_id <$> enriched_data) →
  NoDup (record_id <$> restaurants) ∧
  ∀ review_row, review_row ∈ all_reviews →
    is_Some (record_id review_row) ∧
    ∃ i restaurant_row,
      restaurants !! i = Some restaurant_row ∧
      record_id restaurant_row = record_id review_row ∧
      ∀ j row, restaurants !! j = Some row →
               record_id row = record_id review_row → j = i.
Proof.
  unfold create_dataframe.
  intros (rows & revs & -> & -> & Hrows & Hrevs)%dataframe_loop_inr Hnd.
  rewrite !app_nil_l.
  assert (Hids : record_id <$> rows = record_id <$> enriched_data).
  { clear -Hrows. induction Hrows as [|rest row ?? Hrow _ IH]; [done|].
    rewrite !fmap_cons, IH. f_equal. by apply restaurant_row_of_id. }
  rewrite <- Hids in Hnd. split; [done|].
  intros review_row Hin.
  apply list_elem_of_lookup in Hin as [n Hn].
  destruct (Forall2_lookup_r _ _ _ _ _ Hrevs Hn) as ([rest review] & Hp & Hrow).
  apply review_row_of_id in Hrow as [Hsome Hid]. split; [done|].
  apply list_elem_of_lookup_2, owned_reviews_owner in Hp.
  apply list_elem_of_lookup in Hp as [i Hi].
  destruct (Forall2_lookup_l _ _ _ _ _ Hrows Hi) as (row & Hrow & Hof).
  simpl in Hid. apply restaurant_row_of_id in Hof.
  exists i, row. split; [done|]. split; [congruence|].
  intros j row' Hrow' Hid'.
  apply (NoDup_lookup _ j i (record_id row) Hnd); rewrite list_lookup_fmap.
  - rewrite Hrow'. simpl. congruence.
  - by rewrite Hrow.
Qed.

(** ** DetailEnricher *)

Lemma detail_requests_app self evs1 evs2 :
  detail_requests self (evs1 ++ evs2) =
  detail_requests self evs1 ++ detail_requests self evs2.
Proof. apply omap_app. Qed.

Lemma requested_place_details self place_id response :
  requested_place self
    (EGet (details_url self) (details_params self place_id) response)
  = Some place_id.
Proof. simpl. by rewrite String.eqb_refl. Qed.

(** The identifier of an enriched record is the one of the listing it was
    built for, whatever the detail payload says. *)
Lemma enriched_record_id restaurant details enriched :
  enriched_record restaurant details = inr enriched →
  is_Some (record_id enriched) ∧ record_id enriched = record_id restaurant.
Proof.
  unfold enriched_record.
  destruct (Py.getitem restaurant "place_id") as [|place_id] eqn:Hid;
    [discriminate|].
  apply getitem_inr in Hid as (d & -> & Hid). cbn [mbind exn_bind].
  repeat match goal with
  | |- (?m ≫= _) = inr _ → _ =>
      destruct m; [discriminate|]; cbn [mbind exn_bind]
  end.
  intros [= <-]. simpl. rewrite Hid. eauto.
Qed.

(** A payload that is there but has no coordinates makes the record
    expression raise. *)
Lemma enriched_record_without_coordinates restaurant place_id details e :
  Py.getitem restaurant "place_id" = inr place_id →
  coordinates details = inl e →
  enriched_record restaurant details =
    inl (if is_dict details then e else AttributeError).
Proof.
  intros Hid Hcoord. unfold enriched_record, coordinates in *. rewrite Hid.
  cbn [mbind exn_bind].
  destruct details as [| | | | | |d]; try done.
  cbn [Py.get mbind exn_bind is_dict].
  destruct (Py.getitem (VDict d) "geometry") as [|geometry]; cbn [mbind exn_bind] in *.
  - by injection Hcoord as ->.
  - by rewrite Hcoord.
Qed.

(** The record built from a payload that has its coordinates. *)
Lemma enriched_record_with_coordinates restaurant place_id d location lat lng types :
  Py.getitem restaurant "place_id" = inr place_id →
  coordinates (VDict d) = inr location →
  Py.getitem location "lat" = inr lat →
  Py.getitem location "lng" = inr lng →
  Py.join ", " (default (VList []) (d !! "types")) = inr types →
  enriched_record restaurant (VDict d) =
    inr (VDict (list_to_map
      [("place_id", place_id);
       ("name", default VNone (d !! "name"));
       ("address", default VNone (d !! "formatted_address"));
       ("lat", lat); ("lng", lng);
       ("rating", default VNone (d !! "rating"));
       ("total_reviews", default (VInt 0) (d !! "user_ratings_total"));
       ("price_level", default VNone (d !! "price_level"));
       ("phone", default VNone (d !! "formatted_phone_number"));
       ("website", default VNone (d !! "website"));
       ("types", VStr types);
       ("reviews", default (VList []) (d !! "reviews"))]%string)).
Proof.
  intros Hid Hcoord Hlat Hlng Htypes. unfold enriched_record, coordinates in *.
  rewrite Hid. cbn [Py.get mbind exn_bind].
  destruct (Py.getitem (VDict d) "geometry") as [|geometry]; [done|].
  cbn [mbind exn_bind] in *. rewrite Hcoord. cbn [mbind exn_bind].
  rewrite Hlat, Hlng. cbn [mbind exn_bind]. by rewrite Htypes.
Qed.

Section DetailEnricher.

Variable api : service.
Variable self : collector.

Lemma get_restaurant_details_Ok place_id t details t' :
  get_restaurant_details api self place_id t = (Ok details, t') →
  ∃ evs, t' = t ++ evs ∧ detail_requests self evs = [place_id].
Proof.
  unfold get_restaurant_details. intros Hrun. invert_run.
  match goal with H : (if ?c then _ else _) _ = _ |- _ => destruct c end;
    invert_run.
  - eexists [_]. split; [done|]. unfold detail_requests. simpl.
    by rewrite String.eqb_refl.
  - eexists [_; _]. rewrite <- app_assoc. split; [done|].
    unfold detail_requests. simpl. by rewrite String.eqb_refl.
Qed.

(** One listing handled without an exception: one detail request for its
    identifier, and at most one record, built for this listing. *)
Lemma enrich_body_Ok total idx restaurant enriched_data t enriched_data' t' :
  enrich_body api self total idx restaurant enriched_data t
    = (Ok enriched_data', t') →
  ∃ place_id evs,
    Py.getitem restaurant "place_id" = inr place_id ∧
    t' = t ++ evs ∧
    detail_requests self evs = [place_id] ∧
    (enriched_data' = enriched_data ∨
     ∃ details enriched,
       enriched_record restaurant details = inr enriched ∧
       enriched_data' = enriched_data ++ [enriched]).
Proof.
  unfold enrich_body. intros Hrun. invert_run.
  match goal with H : get_restaurant_details _ _ _ _ = _ |- _ =>
    apply get_restaurant_details_Ok in H as (evs & -> & Hreq) end.
  match goal with H : Py.getitem restaurant _ = inr ?p |- _ =>
    exists p; rename H into Hid end.
  match goal with H : (if ?c then _ else _) _ = _ |- _ => destruct c end;
    invert_run.
  - eexists (_ :: evs ++ [_; _]). rewrite <- !app_assoc.
    split; [done|]. split; [done|]. split; [|by eauto].
    unfold detail_requests in *. simpl. by rewrite omap_app, Hreq.
  - eexists (_ :: evs ++ [_]). rewrite <- !app_assoc.
    split; [done|]. split; [done|]. split; [|by left].
    unfold detail_requests in *. simpl. by rewrite omap_app, Hreq.
Qed.

Lemma enrich_loop_Ok total idx restaurants enriched_data t r t' :
  enrich_loop api self total idx restaurants enriched_data t = (Ok r, t') →
  ∃ evs producers enriched,
    t' = t ++ evs ∧
    Forall2 (λ stub place_id, Py.getitem stub "place_id" = inr place_id)
      restaurants (detail_requests self evs) ∧
    r = enriched_data ++ enriched ∧
    producers `sublist_of` restaurants ∧
    Forall2 (λ stub record, ∃ details,
               enriched_record stub details = inr record)
      producers enriched.
Proof.
  revert idx enriched_data t.
  induction restaurants as [|restaurant restaurants IH];
    intros idx enriched_data t Hrun; cbn [enrich_loop] in Hrun.
  { invert_run. exists [], [], []. rewrite !app_nil_r.
    repeat split; constructor. }
  invert_run.
  match goal with H : enrich_body _ _ _ _ _ _ _ = _ |- _ =>
    apply enrich_body_Ok in H as (place_id & evs1 & Hid & -> & Hreq & Hrec) end.
  apply IH in Hrun as (evs2 & producers & enriched & -> & Hreqs & -> & Hsub & Hprod).
  exists (evs1 ++ evs2). rewrite <- app_assoc, detail_requests_app, Hreq.
  destruct Hrec as [->|(details & record & Hrec & ->)].
  - exists producers, enriched. split; [done|]. split; [by constructor|].
    split; [done|]. split; [by apply sublist_cons|done].
  - exists (restaurant :: producers), (record :: enriched).
    rewrite <- app_assoc. split; [done|]. split; [by constructor|].
    split; [done|]. split; [by apply sublist_skip|].
    constructor; [by eauto|done].
Qed.

(** C3: every record that [enrich_with_details_and_reviews] returns was
    built from one of the listings it was given (the records follow the
    order of the listings), and carries the [place_id] of that listing,
    not one from the detail payload. *)
Theorem enriched_record_keeps_the_stub_identifier
    (restaurants : list value) (max_restaurants : option Z)
    (t t' : list event) (enriched_data : list value) :
  enrich_with_details_and_reviews api self restaurants max_restaurants t
    = (Ok enriched_data, t') →
  ∃ producers,
    producers `sublist_of` restaurants ∧
    Forall2 (λ stub record,
               (∃ details, enriched_record stub details = inr record) ∧
               is_Some (record_id record) ∧
               record_id record = record_id stub)
      producers enriched_data.
Proof.
  unfold enrich_with_details_and_reviews. intros Hrun. invert_run.
  apply enrich_loop_Ok in Hrun
    as (evs & producers & enriched & _ & _ & -> & Hsub & Hprod).
  exists producers. split.
  - etrans; [exact Hsub|].
    destruct max_restaurants as [k|]; [|done].
    destruct (negb (k =? 0)); [|done].
    unfold Py.slice_to. destruct (0 <=? k); apply sublist_take.
  - rewrite app_nil_l. eapply Forall2_impl; [exact Hprod|].
    intros stub record [details Hrec]. split; [by eauto|].
    by eapply enriched_record_id.
Qed.

(** However the handling of one listing ends, it has asked for the details
    of that listing at most once, and of nothing else; when it ends
    normally it has asked exactly once. *)
Lemma enrich_body_requests total idx restaurant enriched_data t out t' :
  enrich_body api self total idx restaurant enriched_data t = (out, t') →
  ∃ evs, t' = t ++ evs ∧
    ((detail_requests self evs = [] ∧ ∀ r, out ≠ Ok r) ∨
     ∃ place_id, Py.getitem restaurant "place_id" = inr place_id ∧
                 detail_requests self evs = [place_id]).
Proof.
  unfold enrich_body, get_restaurant_details, bind, lift, print, sleep, ret,
    requests_get.
  destruct (Py.get restaurant "name" _);
    [intros [= <- <-]; exists []; rewrite app_nil_r; by auto|].
  destruct (Py.getitem restaurant "place_id") as [|place_id];
    [intros [= <- <-]; eexists [_]; by auto|].
  assert (Hreq : ∀ response more,
    detail_requests self
      (EPrint "[{}/{}] {}" [VInt idx; VInt total; v] ::
       EGet (details_url self) (details_params self place_id) response ::
       more) = place_id :: detail_requests self more).
  { intros. unfold detail_requests. simpl. by rewrite String.eqb_refl. }
  destruct (api _ _ _) as [|data];
    [intros [= <- <-]; eexists [_; _]; rewrite <- !app_assoc;
     split; [done|]; right; eexists; split; [done|]; by rewrite Hreq|].
  repeat match goal with
  | |- context [match ?x with inl _ => _ | inr _ => _ end] => destruct x
  | |- context [if ?c then _ else _] => destruct c
  end;
    intros [= <- <-]; eexists (_ :: _ :: _); rewrite <- !app_assoc;
    (split; [simpl; done|]); right; eexists; (split; [done|]);
    by rewrite Hreq.
Qed.

(** However the loop ends, the details were asked for a prefix of the
    listings, in order; for all of them when it ends normally. *)
Lemma enrich_loop_requests total idx restaurants enriched_data t out t' :
  enrich_loop api self total idx restaurants enriched_data t = (out, t') →
  ∃ evs n, t' = t ++ evs ∧ (n ≤ length restaurants)%nat ∧
    Forall2 (λ stub place_id, Py.getitem stub "place_id" = inr place_id)
      (take n restaurants) (detail_requests self evs) ∧
    (∀ r, out = Ok r → n = length restaurants).
Proof.
  revert idx enriched_data t.
  induction restaurants as [|restaurant restaurants IH];
    intros idx enriched_data t; cbn [enrich_loop].
  { intros [= <- <-]. exists [], 0%nat. rewrite app_nil_r.
    repeat split; [done|constructor]. }
  unfold bind.
  destruct (enrich_body api self total idx restaurant enriched_data t)
    as [body t1] eqn:Hbody.
  apply enrich_body_requests in Hbody
    as (evs1 & -> & [[Hnone Hnot]|(place_id & Hid & Hone)]).
  - destruct body as [acc| |]; [by destruct (Hnot acc)|..];
      intros [= <- <-]; exists evs1, 0%nat; rewrite Hnone;
      (split; [done|]); (split; [simpl; lia|]); by split; [constructor|].
  - destruct body as [acc| |].
    + intros (evs2 & n & -> & Hn & Hreqs & Hall)%IH.
      exists (evs1 ++ evs2), (S n). rewrite <- app_assoc.
      split; [done|]. split; [simpl; lia|].
      rewrite detail_requests_app, Hone. split; [by constructor|].
      intros r Hr. simpl. f_equal. by eapply Hall.
    + intros [= <- <-]. exists evs1, 1%nat. rewrite Hone.
      split; [done|]. split; [simpl; lia|].
      split; [by repeat constructor|done].
    + intros [= <- <-]. exists evs1, 1%nat. rewrite Hone.
      split; [done|]. split; [simpl; lia|].
      split; [by repeat constructor|done].
Qed.

(** The same for a whole run without a cap. *)
Lemma enrich_requests restaurants t out t' :
  enrich_with_details_and_reviews api self restaurants None t = (out, t') →
  ∃ evs n, t' = t ++ evs ∧
    length (detail_requests self evs) = n ∧
    (n ≤ length restaurants)%nat ∧
    Forall2 (λ stub place_id, Py.getitem stub "place_id" = inr place_id)
      (take n restaurants) (detail_requests self evs) ∧
    (∀ r, out = Ok r → n = length restaurants).
Proof.
  unfold enrich_with_details_and_reviews, bind, print. intros Hrun.
  apply enrich_loop_requests in Hrun as (evs & n & -> & Hn & Hreqs & Hall).
  exists (EPrint rule [] ::
          EPrint "Enriching {} restaurants with details and reviews"
            [VInt (Z.of_nat (length restaurants))] ::
          EPrint rule [] :: evs), n.
  rewrite <- !app_assoc. split; [done|].
  change (detail_requests self (_ :: _ :: _ :: evs)) with (detail_requests self evs).
  split; [|done].
  apply Forall2_length in Hreqs. rewrite <- Hreqs, length_take. lia.
Qed.

(** C5: with a cap [k] that is positive and smaller than the number of
    listings, enrichment is enrichment of the first [k] listings.  However
    the run ends, its detail requests are for the identifiers of a prefix
    of the input, one each and in the order of the input, never more than
    [k]; a run that completes has issued exactly [k], for the first [k]
    listings. *)
Theorem cap_enriches_the_first_k_listings_in_order
    (restaurants : list value) (k : Z) (t t' : list event)
    (out : res (list value)) :
  0 < k < Z.of_nat (length restaurants) →
  enrich_with_details_and_reviews api self restaurants (Some k) t = (out, t') →
  enrich_with_details_and_reviews api self restaurants (Some k) t =
    enrich_with_details_and_reviews api self (take (Z.to_nat k) restaurants) None t ∧
  ∃ evs n, t' = t ++ evs ∧
    length (detail_requests self evs) = n ∧
    (n ≤ Z.to_nat k)%nat ∧
    Forall2 (λ stub place_id, Py.getitem stub "place_id" = inr place_id)
      (take n restaurants) (detail_requests self evs) ∧
    (∀ r, out = Ok r → n = Z.to_nat k).
Proof.
  intros Hk Hrun.
  assert (Hcap : enrich_with_details_and_reviews api self restaurants (Some k) t =
    enrich_with_details_and_reviews api self (take (Z.to_nat k) restaurants) None t).
  { unfold enrich_with_details_and_reviews, Py.slice_to.
    replace (k =? 0) with false by lia. replace (0 <=? k) with true by lia.
    done. }
  split; [done|]. rewrite Hcap in Hrun.
  apply enrich_requests in Hrun as (evs & n & -> & Hlen & Hn & Hreqs & Hall).
  rewrite length_take in Hn, Hall.
  rewrite take_take in Hreqs.
  replace (n `min` Z.to_nat k)%nat with n in Hreqs by lia.
  exists evs, n. split; [done|]. split; [done|]. split; [lia|]. split; [done|].
  intros r Hr. rewrite (Hall r Hr). lia.
Qed.

(** C10: a cap of 0, like no cap at all, truncates nothing: the run is
    the run over the whole input.  Its detail requests follow the input
    from its first listing on, and when the run completes it has asked
    for the details of every listing of the input. *)
Theorem zero_cap_is_no_cap
    (restaurants : list value) (max_restaurants : option Z)
    (t t' : list event) (out : res (list value)) :
  max_restaurants = Some 0 ∨ max_restaurants = None →
  enrich_with_details_and_reviews api self restaurants max_restaurants t = (out, t') →
  enrich_with_details_and_reviews api self restaurants max_restaurants t =
    enrich_with_details_and_reviews api self restaurants None t ∧
  ∃ evs n, t' = t ++ evs ∧
    length (detail_requests self evs) = n ∧
    Forall2 (λ stub place_id, Py.getitem stub "place_id" = inr place_id)
      (take n restaurants) (detail_requests self evs) ∧
    (∀ r, out = Ok r → n = length restaurants).
Proof.
  intros Hcap Hrun.
  assert (Hnone : enrich_with_details_and_reviews api self restaurants max_restaurants t =
    enrich_with_details_and_reviews api self restaurants None t).
  { by destruct Hcap as [-> | ->]. }
  split; [done|]. rewrite Hnone in Hrun.
  apply enrich_requests in Hrun as (evs & n & -> & Hlen & _ & Hreqs & Hall).
  by exists evs, n.
Qed.

Lemma get_restaurant_details_not_ok place_id t data status :
  api t (details_url self) (details_params self place_id) = inr data →
  Py.getitem data "status" = inr status →
  Py.eq_str status "OK" = false →
  get_restaurant_details api self place_id t =
    (Ok VNone,
     t ++ [EGet (details_url self) (details_params self place_id) (inr data);
           EPrint "Error getting details for {}: {}" [place_id; status]]).
Proof.
  intros Hget Hstatus Hne. unfold get_restaurant_details.
  step Hget. step_lift Hstatus. rewrite Hne.
  step_lift (getitem_get _ _ _ VNone Hstatus).
  unfold bind, print, ret. by rewrite <- app_assoc.
Qed.

Lemma get_restaurant_details_result place_id t data details :
  api t (details_url self) (details_params self place_id) = inr data →
  Py.getitem data "status" = inr (VStr "OK") →
  Py.getitem data "result" = inr details →
  get_restaurant_details api self place_id t =
    (Ok details,
     t ++ [EGet (details_url self) (details_params self place_id) (inr data)]).
Proof.
  intros Hget Hstatus Hres. unfold get_restaurant_details.
  step Hget. step_lift Hstatus. cbn [Py.eq_str String.eqb Ascii.eqb Bool.eqb].
  by rewrite (lift_inr _ _ _ Hres).
Qed.

Lemma enrich_body_lookup total idx restaurant enriched_data t place_id :
  Py.getitem restaurant "place_id" = inr place_id →
  enrich_body api self total idx restaurant enriched_data t =
    (details <- get_restaurant_details api self place_id ;;
     enriched_data <-
       (if Py.truthy details then
          enriched <- lift (enriched_record restaurant details) ;;
          let enriched_data := enriched_data ++ [enriched] in
          rating <- lift (Py.getitem enriched "rating") ;;
          reviews <- lift (Py.getitem enriched "reviews") ;;
          n <- lift (Py.len reviews) ;;
          print "   ✓ Rating: {}, Reviews: {}" [rating; VInt n] ;;;
          ret enriched_data
        else ret enriched_data) ;;
     sleep (1 # 2) ;;;
     ret enriched_data) (t ++ [progress_line total idx restaurant]).
Proof.
  intros Hid. unfold enrich_body.
  destruct (getitem_inr _ _ _ Hid) as (d & -> & Hd).
  rewrite (bind_ok _ _ _ _ _ (lift_inr (Py.get (VDict d) "name" _) _ _ eq_refl)).
  unfold bind at 1, print at 1. by step_lift Hid.
Qed.

(** With a service that ignores the history, what the loop returns (or
    raises) does not depend on the trace or on the progress counters. *)
Lemma enrich_body_history_independent
    total idx total' idx' restaurant enriched_data t t' :
  history_independent api →
  (enrich_body api self total idx restaurant enriched_data t).1 =
  (enrich_body api self total' idx' restaurant enriched_data t').1.
Proof.
  intros Hind.
  unfold enrich_body, get_restaurant_details, bind, lift, print, sleep, ret,
    requests_get.
  destruct (Py.get restaurant "name" _); [done|].
  destruct (Py.getitem restaurant "place_id") as [|place_id]; [done|].
  rewrite (Hind (t ++ _) []), (Hind (t' ++ _) []).
  destruct (api [] _ _) as [|data]; [done|].
  destruct (Py.getitem data "status") as [|status]; [done|].
  destruct (Py.eq_str status "OK").
  - destruct (Py.getitem data "result") as [|details]; [done|].
    destruct (Py.truthy details); [|done].
    destruct (enriched_record restaurant details) as [|enriched]; [done|].
    destruct (Py.getitem enriched "rating"); [done|].
    destruct (Py.getitem enriched "reviews") as [|reviews]; [done|].
    by destruct (Py.len reviews).
  - by destruct (Py.get data "status" VNone).
Qed.

Lemma enrich_loop_history_independent
    total idx total' idx' restaurants enriched_data t t' :
  history_independent api →
  (enrich_loop api self total idx restaurants enriched_data t).1 =
  (enrich_loop api self total' idx' restaurants enriched_data t').1.
Proof.
  intros Hind. revert idx idx' enriched_data t t'.
  induction restaurants as [|restaurant restaurants IH];
    intros idx idx' enriched_data t t'; cbn [enrich_loop]; [done|].
  unfold bind.
  pose proof (enrich_body_history_independent total idx total' idx'
    restaurant enriched_data t t' Hind) as Hbody.
  destruct (enrich_body api self total idx _ _ t) as [[acc| |] t1],
    (enrich_body api self total' idx' _ _ t') as [[acc'| |] t1'];
    simpl in Hbody; try discriminate; try done.
  injection Hbody as ->. apply IH.
Qed.

Lemma enrich_loop_skip total idx restaurant restaurants enriched_data t
    place_id data status :
  Py.getitem restaurant "place_id" = inr place_id →
  api (t ++ [progress_line total idx restaurant])
    (details_url self) (details_params self place_id) = inr data →
  Py.getitem data "status" = inr status →
  Py.eq_str status "OK" = false →
  enrich_loop api self total idx (restaurant :: restaurants) enriched_data t =
    enrich_loop api self total (idx + 1) restaurants enriched_data
      (t ++ [progress_line total idx restaurant;
             EGet (details_url self) (details_params self place_id) (inr data);
             EPrint "Error getting details for {}: {}" [place_id; status];
             ESleep (1 # 2)]).
Proof.
  intros Hid Hget Hstatus Hne. cbn [enrich_loop].
  unfold bind at 1. rewrite (enrich_body_lookup _ _ _ _ _ _ Hid).
  rewrite (bind_ok _ _ _ _ _
    (get_restaurant_details_not_ok _ _ _ _ Hget Hstatus Hne)).
  cbn [Py.truthy]. unfold bind, ret, sleep.
  by rewrite <- !app_assoc.
Qed.

Lemma enrich_loop_without h restaurant place_id data status earlier later
    total1 idx1 total2 idx2 enriched_data t1 t2 :
  history_independent api →
  Py.getitem restaurant "place_id" = inr place_id →
  api h (details_url self) (details_params self place_id) = inr data →
  Py.getitem data "status" = inr status →
  Py.eq_str status "OK" = false →
  (enrich_loop api self total1 idx1 (earlier ++ restaurant :: later)
     enriched_data t1).1 =
  (enrich_loop api self total2 idx2 (earlier ++ later) enriched_data t2).1.
Proof.
  intros Hind Hid Hget Hstatus Hne. revert idx1 idx2 enriched_data t1 t2.
  induction earlier as [|x earlier IH]; intros idx1 idx2 acc t1 t2.
  - rewrite !app_nil_l.
    rewrite (enrich_loop_skip total1 idx1 _ _ _ _ _ data status Hid);
      [|by rewrite (Hind _ h)|done|done].
    apply enrich_loop_history_independent, Hind.
  - rewrite <- !app_comm_cons. cbn [enrich_loop]. unfold bind.
    pose proof (enrich_body_history_independent total1 idx1 total2 idx2
      x acc t1 t2 Hind) as Hbody.
    destruct (enrich_body api self total1 idx1 _ _ t1) as [[acc1| |] t1'],
      (enrich_body api self total2 idx2 _ _ t2) as [[acc2| |] t2'];
      simpl in Hbody; try discriminate; try done.
    injection Hbody as ->. apply IH.
Qed.

(** C8: when the detail call for a listing comes back with a status
    other than OK, the listing gives no record and raises nothing: after
    that one request (and a log line and the usual pause) the loop goes
    on with the remaining listings and the records collected so far.
    With a service whose answers do not depend on the history, the run
    returns (or raises) exactly what it does on the input without that
    listing. *)
Theorem non_success_detail_status_skips_the_listing
    (total idx : Z) (restaurant : value) (restaurants enriched_data : list value)
    (t : list event) (place_id data status : value) :
  Py.getitem restaurant "place_id" = inr place_id →
  api (t ++ [progress_line total idx restaurant])
    (details_url self) (details_params self place_id) = inr data →
  Py.getitem data "status" = inr status →
  Py.eq_str status "OK" = false →
  enrich_loop api self total idx (restaurant :: restaurants) enriched_data t =
    enrich_loop api self total (idx + 1) restaurants enriched_data
      (t ++ [progress_line total idx restaurant;
             EGet (details_url self) (details_params self place_id) (inr data);
             EPrint "Error getting details for {}: {}" [place_id; status];
             ESleep (1 # 2)]) ∧
  (history_independent api →
   ∀ earlier t0,
     (enrich_with_details_and_reviews api self
        (earlier ++ restaurant :: restaurants) None t0).1 =
     (enrich_with_details_and_reviews api self
        (earlier ++ restaurants) None t0).1).
Proof.
  intros Hid Hget Hstatus Hne.
  split; [by apply enrich_loop_skip|].
  intros Hind earlier t0. unfold enrich_with_details_and_reviews.
  unfold bind, print.
  by eapply enrich_loop_without.
Qed.

(** C9, as the code has it: a detail call with status OK whose payload is
    there (not empty, not null) but lacks [geometry.location] makes
    enrichment raise, right after the request: nothing is returned and
    the remaining listings are not looked up.  When the coordinates are
    there, a missing rating, phone, website, price level, review count,
    type list or review list raises nothing: the record holds [None],
    0, the empty string or the empty list in its place. *)
Theorem missing_coordinates_are_fatal_other_fields_default
    (total idx : Z) (restaurant : value) (restaurants enriched_data : list value)
    (t : list event) (place_id data details : value) :
  Py.getitem restaurant "place_id" = inr place_id →
  api (t ++ [progress_line total idx restaurant])
    (details_url self) (details_params self place_id) = inr data →
  Py.getitem data "status" = inr (VStr "OK") →
  Py.getitem data "result" = inr details →
  Py.truthy details = true →
  (∀ e, coordinates details = inl e →
     enrich_loop api self total idx (restaurant :: restaurants) enriched_data t =
       (Raise (if is_dict details then e else AttributeError),
        t ++ [progress_line total idx restaurant;
              EGet (details_url self) (details_params self place_id) (inr data)])) ∧
  (∀ d location lat lng types n,
     details = VDict d →
     coordinates details = inr location →
     Py.getitem location "lat" = inr lat →
     Py.getitem location "lng" = inr lng →
     Py.join ", " (default (VList []) (d !! "types")) = inr types →
     Py.len (default (VList []) (d !! "reviews")) = inr n →
     ∃ record,
       enrich_body api self total idx restaurant enriched_data t =
         (Ok (enriched_data ++ [VDict record]),
          t ++ [progress_line total idx restaurant;
                EGet (details_url self) (details_params self place_id) (inr data);
                EPrint "   ✓ Rating: {}, Reviews: {}" [default VNone (d !! "rating"); VInt n];
                ESleep (1 # 2)]) ∧
       record !! "rating" = Some (default VNone (d !! "rating")) ∧
       record !! "phone" = Some (default VNone (d !! "formatted_phone_number")) ∧
       record !! "website" = Some (default VNone (d !! "website")) ∧
       record !! "price_level" = Some (default VNone (d !! "price_level")) ∧
       record !! "total_reviews" = Some (default (VInt 0) (d !! "user_ratings_total")) ∧
       record !! "types" = Some (VStr types) ∧
       (d !! "types" = None → types = ""%string) ∧
       record !! "reviews" = Some (default (VList []) (d !! "reviews"))).
Proof.
  intros Hid Hget Hstatus Hres Htruthy. split.
  - intros e Hcoord. cbn [enrich_loop]. unfold bind at 1.
    rewrite (enrich_body_lookup _ _ _ _ _ _ Hid).
    rewrite (bind_ok _ _ _ _ _
      (get_restaurant_details_result _ _ _ _ Hget Hstatus Hres)).
    rewrite Htruthy. unfold bind at 1. unfold bind at 1.
    rewrite (lift_inl _ _ _ (enriched_record_without_coordinates _ _ _ _ Hid Hcoord)).
    by rewrite <- app_assoc.
  - intros d location lat lng types n -> Hcoord Hlat Hlng Htypes Hlen.
    eexists. split.
    + rewrite (enrich_body_lookup _ _ _ _ _ _ Hid).
      rewrite (bind_ok _ _ _ _ _
        (get_restaurant_details_result _ _ _ _ Hget Hstatus Hres)).
      rewrite Htruthy. unfold bind at 1. unfold bind at 1.
      rewrite (lift_inr _ _ _
        (enriched_record_with_coordinates _ _ _ _ _ _ _ Hid Hcoord Hlat Hlng Htypes)).
      match goal with |- context [Py.getitem ?record "rating"] =>
        change (Py.getitem record "rating")
          with (@inr exn _ (default VNone (d !! "rating")));
        change (Py.getitem record "reviews")
          with (@inr exn _ (default (VList []) (d !! "reviews")))
      end.
      unfold bind at 1. unfold bind at 1. cbn [lift].
      unfold bind at 1. rewrite (lift_inr _ _ _ Hlen).
      unfold bind, print, sleep, ret. by rewrite <- !app_assoc.
    + split_and!; try reflexivity.
      intros Hnone. rewrite Hnone in Htypes. by injection Htypes as <-.
Qed.

End DetailEnricher.

(** ** The theorems at work on the sample services *)

Lemma zero_results_first_page_witness :
  Sample.nothing_here [] (nearbysearch Sample.self)
    (first_page_params Sample.self "41.3851,2.1734" 5000) = inr Sample.zero_results ∧
  Py.getitem Sample.zero_results "status" = inr (VStr "ZERO_RESULTS") ∧
  get_restaurants_in_area Sample.nothing_here 1 Sample.self None 5000 [] =
    (Ok [],
     [EGet (nearbysearch Sample.self)
        (first_page_params Sample.self "41.3851,2.1734" 5000)
        (inr Sample.zero_results);
      EPrint "No more results in this area" []]).
Proof.
  split; [reflexivity|]. split; [reflexivity|].
  apply (zero_results_first_page_yields_no_stubs
           Sample.nothing_here Sample.self 0 None 5000 []); reflexivity.
Defined.

Lemma two_pages_witness :
  length (Sample.stubs "p" 20) = 20%nat ∧
  length (Sample.stubs "q" 5) = 5%nat ∧
  ∃ stubs delay,
    get_restaurants_in_area Sample.two_pages 2 Sample.self None 5000 [] =
      (Ok stubs,
       [EGet (nearbysearch Sample.self)
          (first_page_params Sample.self "41.3851,2.1734" 5000)
          (inr Sample.first_page);
        ESleep delay;
        EGet (nearbysearch Sample.self)
          (next_page_params Sample.self (VStr "T1")) (inr Sample.second_page)]) ∧
    stubs = Sample.stubs "p" 20 ++ Sample.stubs "q" 5 ∧
    length stubs = 25%nat ∧
    (2 <= delay)%Q.
Proof.
  split; [reflexivity|]. split; [reflexivity|].
  apply (two_pages_yield_25_stubs_after_one_delay
           Sample.two_pages Sample.self 0 None 5000 []
           Sample.first_page Sample.second_page (VStr "T1")
           (Sample.stubs "p" 20) (Sample.stubs "q" 5));
    reflexivity.
Defined.

Lemma finished_returned run :
  Sample.finished run = true → run = (Ok (Sample.returned run), run.2).
Proof.
  unfold Sample.finished, Sample.returned.
  destruct run as [[r| |] t]; simpl; [reflexivity|discriminate..].
Defined.

Lemma collect_witness :
  Sample.finished Sample.collection = true ∧
  Sample.returned Sample.collection = Sample.kept ∧
  ∃ evs, Sample.collection.2 = [] ++ evs ∧
    Sample.returned Sample.collection = first_seen (listings evs) ∧
    NoDup (place_key <$> Sample.returned Sample.collection) ∧
    (∀ s, s ∈ listings evs →
       ∃ s', filter (λ y, same_place y s) (Sample.returned Sample.collection)
             = [s']) ∧
    Sample.returned Sample.collection `sublist_of` listings evs.
Proof.
  assert (Hok : Sample.finished Sample.collection = true)
    by (vm_compute; reflexivity).
  split; [exact Hok|]. split; [vm_compute; reflexivity|].
  exact (collect_keeps_each_place_id_once_in_first_seen_order
           Sample.overlapping Sample.self 1 9 [] _ _ (finished_returned _ Hok)).
Defined.

Lemma create_dataframe_witness :
  Forall (λ rest, enriched_ok rest = true) Sample.records ∧
  ∃ restaurants all_reviews,
    create_dataframe Sample.self Sample.records = inr (restaurants, all_reviews) ∧
    Forall2 restaurant_row_of Sample.records restaurants ∧
    Forall2 (λ p row, review_row_of p.1 p.2 row)
      (owned_reviews Sample.records) all_reviews.
Proof.
  assert (Hok : Forall (λ rest, enriched_ok rest = true) Sample.records)
    by (repeat constructor).
  split; [exact Hok|].
  exact (create_dataframe_splits_records_into_rows Sample.self Sample.records Hok).
Defined.

Lemma review_rows_witness :
  create_dataframe Sample.self Sample.records
    = inr (Sample.tables.1, Sample.tables.2) ∧
  length Sample.tables.1 = 2%nat ∧ length Sample.tables.2 = 2%nat ∧
  NoDup (record_id <$> Sample.tables.1) ∧
  ∀ review_row, review_row ∈ Sample.tables.2 →
    is_Some (record_id review_row) ∧
    ∃ i restaurant_row,
      Sample.tables.1 !! i = Some restaurant_row ∧
      record_id restaurant_row = record_id review_row ∧
      ∀ j row, Sample.tables.1 !! j = Some row →
               record_id row = record_id review_row → j = i.
Proof.
  assert (Hrun : create_dataframe Sample.self Sample.records
                 = inr (Sample.tables.1, Sample.tables.2)).
  { assert (Hinr : (if create_dataframe Sample.self Sample.records is inr _
                    then true else false) = true)
      by (vm_compute; reflexivity).
    unfold Sample.tables.
    destruct (create_dataframe Sample.self Sample.records) as [e|[rows revs]];
      [discriminate Hinr|reflexivity]. }
  split; [exact Hrun|].
  split; [vm_compute; reflexivity|]. split; [vm_compute; reflexivity|].
  apply (review_rows_reference_exactly_one_restaurant_row
           Sample.self Sample.records _ _ Hrun).
  simpl. repeat constructor;
    intros H; repeat (apply elem_of_cons in H as [H|H]; [discriminate H|]);
    by apply elem_of_nil in H.
Defined.

Lemma enriched_record_witness :
  Sample.finished Sample.capped = true ∧
  length (Sample.returned Sample.capped) = 10%nat ∧
  ∃ producers,
    producers `sublist_of` Sample.stubs "r" 50 ∧
    Forall2 (λ stub record,
               (∃ details, enriched_record stub details = inr record) ∧
               is_Some (record_id record) ∧
               record_id record = record_id stub)
      producers (Sample.returned Sample.capped).
Proof.
  assert (Hok : Sample.finished Sample.capped = true)
    by (vm_compute; reflexivity).
  split; [exact Hok|]. split; [vm_compute; reflexivity|].
  exact (enriched_record_keeps_the_stub_identifier Sample.details Sample.self
           (Sample.stubs "r" 50) (Some 10) [] _ _ (finished_returned _ Hok)).
Defined.

Lemma cap_witness :
  0 < 10 < Z.of_nat (length (Sample.stubs "r" 50)) ∧
  Sample.finished Sample.capped = true ∧
  Sample.capped =
    enrich_with_details_and_reviews Sample.details Sample.self
      (take (Z.to_nat 10) (Sample.stubs "r" 50)) None [] ∧
  ∃ evs n, Sample.capped.2 = [] ++ evs ∧
    length (detail_requests Sample.self evs) = n ∧
    (n ≤ Z.to_nat 10)%nat ∧
    Forall2 (λ stub place_id, Py.getitem stub "place_id" = inr place_id)
      (take n (Sample.stubs "r" 50)) (detail_requests Sample.self evs) ∧
    (∀ r, Sample.capped.1 = Ok r → n = Z.to_nat 10).
Proof.
  assert (Hk : 0 < 10 < Z.of_nat (length (Sample.stubs "r" 50)))
    by (vm_compute; split; reflexivity).
  split; [exact Hk|]. split; [vm_compute; reflexivity|].
  exact (cap_enriches_the_first_k_listings_in_order Sample.details Sample.self
           (Sample.stubs "r" 50) 10 [] _ _ Hk (surjective_pairing Sample.capped)).
Defined.

Lemma zero_cap_witness :
  Sample.finished Sample.uncapped = true ∧
  Sample.uncapped =
    enrich_with_details_and_reviews Sample.details Sample.self
      (Sample.stubs "r" 3) None [] ∧
  ∃ evs n, Sample.uncapped.2 = [] ++ evs ∧
    length (detail_requests Sample.self evs) = n ∧
    Forall2 (λ stub place_id, Py.getitem stub "place_id" = inr place_id)
      (take n (Sample.stubs "r" 3)) (detail_requests Sample.self evs) ∧
    (∀ r, Sample.uncapped.1 = Ok r → n = length (Sample.stubs "r" 3)).
Proof.
  split; [vm_compute; reflexivity|].
  exact (zero_cap_is_no_cap Sample.details Sample.self
           (Sample.stubs "r" 3) (Some 0) [] _ _ (or_introl eq_refl)
           (surjective_pairing Sample.uncapped)).
Defined.

Lemma skipped_listing_witness :
  Py.getitem (Sample.stub "closed" "Tancat") "place_id" = inr (VStr "closed") ∧
  Py.getitem Sample.not_found "status" = inr (VStr "NOT_FOUND") ∧
  Py.eq_str (VStr "NOT_FOUND") "OK" = false ∧
  enrich_loop Sample.details Sample.self 2 1
    [Sample.stub "closed" "Tancat"; Sample.stub "X123" "Can Culleretes"] [] [] =
  enrich_loop Sample.details Sample.self 2 (1 + 1)
    [Sample.stub "X123" "Can Culleretes"] []
    ([] ++ [progress_line 2 1 (Sample.stub "closed" "Tancat");
            EGet (details_url Sample.self)
              (details_params Sample.self (VStr "closed")) (inr Sample.not_found);
            EPrint "Error getting details for {}: {}" [VStr "closed"; VStr "NOT_FOUND"];
            ESleep (1 # 2)]) ∧
  (history_independent Sample.details →
   ∀ earlier t0,
     (enrich_with_details_and_reviews Sample.details Sample.self
        (earlier ++ Sample.stub "closed" "Tancat" ::
           [Sample.stub "X123" "Can Culleretes"]) None t0).1 =
     (enrich_with_details_and_reviews Sample.details Sample.self
        (earlier ++ [Sample.stub "X123" "Can Culleretes"]) None t0).1).
Proof.
  split; [reflexivity|]. split; [reflexivity|]. split; [reflexivity|].
  apply (non_success_detail_status_skips_the_listing Sample.details Sample.self
           2 1 (Sample.stub "closed" "Tancat")
           [Sample.stub "X123" "Can Culleretes"] [] []
           (VStr "closed") Sample.not_found (VStr "NOT_FOUND"));
    reflexivity.
Defined.

Lemma missing_coordinates_witness :
  (Py.truthy (VDict Sample.no_geometry) = true ∧
   coordinates (VDict Sample.no_geometry) = inl (KeyError "geometry") ∧
   enrich_loop Sample.details Sample.self 2 1
     [Sample.stub "nowhere" "Enlloc"; Sample.stub "X123" "Can Culleretes"] [] [] =
     (Raise (KeyError "geometry"),
      [] ++ [progress_line 2 1 (Sample.stub "nowhere" "Enlloc");
             EGet (details_url Sample.self)
               (details_params Sample.self (VStr "nowhere"))
               (inr (Sample.ok_details Sample.no_geometry))])) ∧
  (Py.truthy (VDict Sample.sparse_payload) = true ∧
   coordinates (VDict Sample.sparse_payload) = inr Sample.location ∧
   ∃ record,
     enrich_body Sample.details Sample.self 2 1
       (Sample.stub "sparse" "Pinotxo") [] [] =
       (Ok ([] ++ [VDict record]),
        [] ++ [progress_line 2 1 (Sample.stub "sparse" "Pinotxo");
               EGet (details_url Sample.self)
                 (details_params Sample.self (VStr "sparse"))
                 (inr (Sample.ok_details Sample.sparse_payload));
               EPrint "   ✓ Rating: {}, Reviews: {}" [VNone; VInt 0];
               ESleep (1 # 2)]) ∧
     record !! "rating" = Some VNone ∧
     record !! "phone" = Some VNone ∧
     record !! "website" = Some VNone ∧
     record !! "price_level" = Some VNone ∧
     record !! "total_reviews" = Some (VInt 0) ∧
     record !! "types" = Some (VStr "") ∧
     record !! "reviews" = Some (VList [])).
Proof.
  split.
  - split; [reflexivity|]. split; [reflexivity|].
    apply (missing_coordinates_are_fatal_other_fields_default
             Sample.details Sample.self 2 1 (Sample.stub "nowhere" "Enlloc")
             [Sample.stub "X123" "Can Culleretes"] [] []
             (VStr "nowhere") (Sample.ok_details Sample.no_geometry)
             (VDict Sample.no_geometry));
      reflexivity.
  - split; [reflexivity|]. split; [reflexivity|].
    destruct (missing_coordinates_are_fatal_other_fields_default
                Sample.details Sample.self 2 1 (Sample.stub "sparse" "Pinotxo")
                [] [] [] (VStr "sparse")
                (Sample.ok_details Sample.sparse_payload)
                (VDict Sample.sparse_payload)
                eq_refl eq_refl eq_refl eq_refl eq_refl) as [_ Hdefaults].
    destruct (Hdefaults Sample.sparse_payload Sample.location
                (VFloat (Q2Qc (413851 # 10000))) (VFloat (Q2Qc (21734 # 10000)))
                ""%string 0 eq_refl eq_refl eq_refl eq_refl eq_refl eq_refl)
      as (record & Hrun & Hrating & Hphone & Hweb & Hprice & Htotal & Htypes & _ & Hreviews).
    exists record. repeat split; assumption.
Defined.

(** C9, as it is written, fails on an empty payload: the status is OK and
    there is no [geometry], yet nothing is raised; the listing is skipped
    and the run returns normally. *)
Lemma empty_payload_is_skipped_not_fatal :
  Py.getitem (Sample.ok_details ∅) "status" = inr (VStr "OK") ∧
  Py.getitem (Sample.ok_details ∅) "result" = inr (VDict ∅) ∧
  coordinates (VDict ∅) = inl (KeyError "geometry") ∧
  enrich_with_details_and_reviews Sample.details Sample.self
    [Sample.stub "empty" "Buit"] None [] =
    (Ok [],
     [EPrint rule [];
      EPrint "Enriching {} restaurants with details and reviews" [VInt 1];
      EPrint rule [];
      progress_line 1 1 (Sample.stub "empty" "Buit");
      EGet (details_url Sample.self) (details_params Sample.self (VStr "empty"))
        (inr (Sample.ok_details ∅));
      ESleep (1 # 2)]) ∧
  ¬ ∃ e t', enrich_with_details_and_reviews Sample.details Sample.self
              [Sample.stub "empty" "Buit"] None [] = (Raise e, t').
Proof.
  split; [reflexivity|]. split; [reflexivity|]. split; [reflexivity|].
  assert (Hrun : enrich_with_details_and_reviews Sample.details Sample.self
    [Sample.stub "empty" "Buit"] None [] =
    (Ok [],
     [EPrint rule [];
      EPrint "Enriching {} restaurants with details and reviews" [VInt 1];
      EPrint rule [];
      progress_line 1 1 (Sample.stub "empty" "Buit");
      EGet (details_url Sample.self) (details_params Sample.self (VStr "empty"))
        (inr (Sample.ok_details ∅));
      ESleep (1 # 2)])) by reflexivity.
  split; [exact Hrun|]. intros (e & t' & Hraise).
  rewrite Hrun in Hraise. discriminate Hraise.
Qed.

(** * Further properties *)

(** ** More on AreaSearch *)

Section AreaSearchMore.

Variable api : service.
Variable self : collector.

(** X1: at any page of the paging loop, an answer whose status is not OK
    ends the search without an exception: the listings of the earlier
    pages are returned as they are, after one log line that says "No more
    results" for ZERO_RESULTS and names the status otherwise; no further
    request is made. *)
Theorem non_ok_page_ends_search_with_earlier_listings
    (fuel : nat) (params : list (string * value)) (earlier : list value)
    (t : list event) (data status : value) :
  api t (nearbysearch self) params = inr data →
  Py.getitem data "status" = inr status →
  Py.eq_str status "OK" = false →
  ∃ line,
    area_loop api (S fuel) self params earlier t =
      (Ok earlier, t ++ [EGet (nearbysearch self) params (inr data); line]) ∧
    ((Py.eq_str status "ZERO_RESULTS" = true ∧
      line = EPrint "No more results in this area" []) ∨
     (Py.eq_str status "ZERO_RESULTS" = false ∧
      line = EPrint "Error: {}" [status])).
Proof.
  intros Hget Hstatus Hne.
  rewrite (area_loop_not_ok api self fuel params earlier t data status Hget Hstatus Hne).
  eexists. split; [done|].
  destruct (Py.eq_str status "ZERO_RESULTS"); auto.
Qed.

(** X2: what [get_restaurants_in_area] returns is exactly what its pages
    carried: the results of every page with status OK, in the order in
    which the pages arrived, nothing added and nothing left out. *)
Theorem area_search_returns_the_listings_of_its_pages
    (fuel : nat) (location : option string) (radius : Z)
    (t t' : list event) (r : list value) :
  get_restaurants_in_area api fuel self location radius t = (Ok r, t') →
  ∃ evs, t' = t ++ evs ∧ r = listings evs.
Proof.
  unfold get_restaurants_in_area.
  intros (evs & -> & ->)%area_loop_listings. by exists evs.
Qed.

Lemma area_loop_paced fuel params acc t out t' :
  area_loop api fuel self params acc t = (out, t') →
  ∃ evs, t' = t ++ evs ∧
    (∀ e, head evs = Some e →
       ∃ response, e = EGet (nearbysearch self) params response) ∧
    ∀ i url params' response,
      evs !! S i = Some (EGet url params' response) →
      ∃ j params0 data token,
        i = S j ∧
        evs !! j = Some (EGet (nearbysearch self) params0 (inr data)) ∧
        evs !! i = Some (ESleep 2) ∧
        Py.getitem data "next_page_token" = inr token ∧
        url = nearbysearch self ∧
        params' = next_page_params self token.
Proof.
  revert params acc t. induction fuel as [|fuel IH]; intros params acc t.
  { intros [= <- <-]. exists []. rewrite app_nil_r. by split. }
  cbn [area_loop].
  unfold bind at 1, requests_get at 1.
  destruct (api t (nearbysearch self) params) as [e|data] eqn:Hget.
  { intros [= <- <-]. eexists [_]. split; [done|].
    split; [intros ? [= <-]; eauto|]. by intros [|i]. }
  unfold bind at 1, lift at 1.
  destruct (Py.getitem data "status") as [e|status].
  { intros [= <- <-]. eexists [_]. split; [done|].
    split; [intros ? [= <-]; eauto|]. by intros [|i]. }
  destruct (Py.eq_str status "OK"); cbn [negb].
  - unfold bind at 1, lift at 1.
    destruct (Py.getitem data "results") as [e|results].
    { intros [= <- <-]. eexists [_]. split; [done|].
      split; [intros ? [= <-]; eauto|]. by intros [|i]. }
    unfold bind at 1, lift at 1.
    destruct (Py.iter results) as [e|batch].
    { intros [= <- <-]. eexists [_]. split; [done|].
      split; [intros ? [= <-]; eauto|]. by intros [|i]. }
    unfold bind at 1, lift at 1.
    destruct (Py.contains "next_page_token" data) as [e|[|]].
    { intros [= <- <-]. eexists [_]. split; [done|].
      split; [intros ? [= <-]; eauto|]. by intros [|i]. }
    + unfold bind at 1, sleep at 1. unfold bind at 1, lift at 1.
      destruct (Py.getitem data "next_page_token") as [e|token] eqn:Htoken.
      { intros [= <- <-]. eexists [_; _]. rewrite <- app_assoc.
        split; [done|]. split; [intros ? [= <-]; eauto|]. by intros [|[|i]]. }
      intros (evs & -> & Hhead & Hpaced)%IH.
      exists (EGet (nearbysearch self) params (inr data) :: ESleep 2 :: evs).
      rewrite <- !app_assoc. split; [done|].
      split; [intros ? [= <-]; eauto|].
      intros [|[|i]] url params' response Hi; simpl in Hi.
      * discriminate.
      * destruct (Hhead _ (eq_trans (head_lookup evs) Hi)) as [response' [= -> -> ->]].
        exists 0%nat, params, data, token. by repeat split.
      * destruct (Hpaced _ _ _ _ Hi)
          as (j & params0 & data0 & token0 & -> & Hj & Hsleep & Htok & -> & ->).
        exists (S (S j)), params0, data0, token0. by repeat split.
    + intros [= <- <-]. eexists [_]. split; [done|].
      split; [intros ? [= <-]; eauto|]. by intros [|i].
  - unfold bind, lift, print, ret.
    destruct (Py.eq_str status "ZERO_RESULTS").
    + intros [= <- <-]. eexists [_; _]. rewrite <- app_assoc.
      split; [done|]. split; [intros ? [= <-]; eauto|]. by intros [|[|i]].
    + destruct (Py.get data "status" VNone) as [e|s].
      { intros [= <- <-]. eexists [_]. split; [done|].
        split; [intros ? [= <-]; eauto|]. by intros [|i]. }
      intros [= <- <-]. eexists [_; _]. rewrite <- app_assoc.
      split; [done|]. split; [intros ? [= <-]; eauto|]. by intros [|[|i]].
Qed.

(** X3: however an area search ends, none of its requests but the first
    is sent without the pause: every later request comes right after a
    [time.sleep(2)], which comes after a page that carried a
    continuation token, and it asks for exactly that token (and nothing
    else but the key). *)
Theorem later_requests_follow_a_pause_and_carry_the_token
    (fuel : nat) (location : option string) (radius : Z)
    (t t' : list event) (out : res (list value)) :
  get_restaurants_in_area api fuel self location radius t = (out, t') →
  ∃ evs, t' = t ++ evs ∧
    ∀ i url params response,
      evs !! S i = Some (EGet url params response) →
      ∃ j params0 data token,
        i = S j ∧
        evs !! j = Some (EGet (nearbysearch self) params0 (inr data)) ∧
        evs !! i = Some (ESleep 2) ∧
        Py.getitem data "next_page_token" = inr token ∧
        url = nearbysearch self ∧
        params = next_page_params self token.
Proof.
  unfold get_restaurants_in_area.
  intros (evs & -> & _ & Hpaced)%area_loop_paced. by exists evs.
Qed.

Lemma area_loop_endless fuel params acc t :
  endless api self →
  ∃ evs, area_loop api fuel self params acc t = (OutOfFuel, t ++ evs) ∧
         length (requests evs) = fuel.
Proof.
  intros Hendless. revert params acc t.
  induction fuel as [|fuel IH]; intros params acc t.
  { exists []. by rewrite app_nil_r. }
  destruct (Hendless t params)
    as (data & results & batch & token & Hget & Hstatus & Hres & Hiter & Htok).
  rewrite (area_loop_next_page api self fuel params acc t data results batch token
             Hget Hstatus Hres Hiter Htok).
  destruct (IH (next_page_params self token) (acc ++ batch)
              (t ++ [EGet (nearbysearch self) params (inr data); ESleep 2]))
    as (evs & -> & Hlen).
  eexists (_ :: _ :: evs). rewrite <- app_assoc. split; [done|].
  unfold requests in *.
  rewrite filter_cons_True by done. rewrite filter_cons_False by (by intros []).
  simpl. by rewrite Hlen.
Qed.

(** X4: the paging loop has no bound of its own.  Against a service that
    keeps answering with a page and a token the search never returns:
    whatever number of pages it is allowed, it asks for all of them and
    is still not done. *)
Theorem search_never_returns_while_tokens_keep_coming
    (fuel : nat) (location : option string) (radius : Z) (t : list event) :
  endless api self →
  ∃ evs,
    get_restaurants_in_area api fuel self location radius t
      = (OutOfFuel, t ++ evs) ∧
    length (requests evs) = fuel.
Proof. intros Hendless. by apply area_loop_endless. Qed.

(** X5: a page that cannot be used is fatal, at whatever page it comes:
    when the request itself fails, when the answer has no [status], or
    when an OK answer has no [results] that can be iterated, the
    exception leaves the search right after that request, and the
    listings of the earlier pages are not returned. *)
Theorem unusable_page_raises_and_loses_earlier_listings
    (fuel : nat) (params : list (string * value)) (earlier : list value)
    (t : list event) (e : exn) :
  api t (nearbysearch self) params = inl e ∨
  (∃ data, api t (nearbysearch self) params = inr data ∧
     (Py.getitem data "status" = inl e ∨
      (Py.getitem data "status" = inr (VStr "OK") ∧
       Py.getitem data "results" ≫= Py.iter = inl e))) →
  area_loop api (S fuel) self params earlier t =
    (Raise e,
     t ++ [EGet (nearbysearch self) params (api t (nearbysearch self) params)]).
Proof.
  intros [Hget|(data & Hget & [Hstatus|[Hstatus Hres]])]; cbn [area_loop].
  - by rewrite (bind_raise _ _ _ _ _ (requests_get_inl _ _ _ _ _ Hget)), Hget.
  - step Hget. rewrite Hget.
    by rewrite (bind_raise _ _ _ _ _ (lift_inl _ _ _ Hstatus)).
  - step Hget. rewrite Hget. step_lift Hstatus.
    cbn [Py.eq_str String.eqb Ascii.eqb Bool.eqb negb].
    unfold bind at 1, lift at 1.
    destruct (Py.getitem data "results") as [e'|results]; simpl in Hres.
    + by injection Hres as ->.
    + unfold bind at 1, lift at 1. by rewrite Hres.
Qed.

End AreaSearchMore.

(** ** More on the detail lookup and the Deduplicator *)

Section DeduplicatorMore.

Variable api : service.
Variable self : collector.


Lemma remove_duplicates_fails restaurants seen new :
  Exists (λ s, place_key s = None) restaurants →
  ∃ e, remove_duplicates restaurants seen new = inl e ∧
       (e = KeyError "place_id" ∨ e = TypeError).
Proof.
  intros Hbad. revert seen new.
  induction Hbad as [rest restaurants Hrest|rest restaurants _ IH];
    intros seen new; simpl.
  - unfold place_key in Hrest.
    destruct rest as [| | | | | |d]; simpl in *; try (by eexists; eauto).
    destruct (d !! "place_id") as [place_id|]; simpl in *; [|by eexists; eauto].
    destruct place_id; simpl in *; try discriminate; by eexists; eauto.
  - destruct (Py.getitem rest "place_id") as [e|place_id] eqn:Hid.
    { destruct rest; simpl in *; try (injection Hid as <-; by eexists; eauto).
      destruct (_ !! _); [discriminate|]. injection Hid as <-. by eexists; eauto. }
    simpl. destruct (Py.hash place_id) as [e|k] eqn:Hk.
    { destruct place_id; simpl in *; try discriminate;
        injection Hk as <-; by eexists; eauto. }
    simpl. destruct (decide _); apply IH.
Qed.

(** X7: one listing without a usable [place_id] (none at all, or a list
    or dict, which cannot go into a set) aborts the whole collection:
    the exception leaves [collect_barcelona_restaurants] at that area,
    and the listings kept from the earlier areas are not returned. *)
Theorem listing_without_place_id_aborts_the_collection
    (fuel : nat) (location neighborhood : string)
    (points : list (string * string)) (kept restaurants : list value)
    (seen : gset Py.hkey) (t t1 : list event) :
  get_restaurants_in_area api fuel self (Some location) 2000 t
    = (Ok restaurants, t1) →
  Exists (λ s, place_key s = None) restaurants →
  ∃ e,
    collect_loop api fuel self ((location, neighborhood) :: points) kept seen t
      = (Raise e, t1) ∧
    (e = KeyError "place_id" ∨ e = TypeError).
Proof.
  intros Hrun Hbad. cbn [collect_loop].
  rewrite (bind_ok _ _ _ _ _ Hrun).
  destruct (remove_duplicates_fails restaurants seen [] Hbad) as (e & He & Hkind).
  exists e. split; [|done].
  by rewrite (bind_raise _ _ _ _ _ (lift_inl _ _ _ He)).
Qed.

Lemma area_loop_searched fuel params acc t r t' :
  area_loop api fuel self params acc t = (Ok r, t') →
  ∃ evs, t' = t ++ evs ∧
    omap searched evs =
      omap searched [EGet (nearbysearch self) params (inl TypeError)] ∧
    pauses 3 evs = [].
Proof.
  revert params acc t. induction fuel as [|fuel IH]; intros params acc t Hrun.
  { discriminate. }
  cbn [area_loop] in Hrun. invert_run.
  match goal with H : api _ _ _ = inr ?d |- _ => rename d into data end.
  set (e := EGet (nearbysearch self) params (inr data)) in *.
  assert (He : ∀ evs, omap searched (e :: evs) =
    omap searched [EGet (nearbysearch self) params (inl TypeError)]
      ++ omap searched evs).
  { intros evs. change (e :: evs) with ([e] ++ evs). by rewrite omap_app. }
  assert (Hp : ∀ evs, pauses 3 (e :: evs) = pauses 3 evs).
  { intros evs. unfold pauses. by rewrite filter_cons_False by (by intros []). }
  match goal with H : (if negb ?c then _ else _) _ = _ |- _ => destruct c end;
    cbn [negb] in Hrun; invert_run.
  - match goal with H : Py.contains _ _ = inr ?b |- _ => destruct b end;
      invert_run.
    + apply IH in Hrun as (evs & -> & Hs & Hp').
      exists (e :: ESleep 2 :: evs). rewrite <- !app_assoc. split; [done|].
      split.
      * rewrite He. change (omap searched (ESleep 2 :: evs)) with (omap searched evs).
        rewrite Hs. simpl. by rewrite app_nil_r.
      * rewrite Hp. unfold pauses in *.
        by rewrite filter_cons_False by (by intros []).
    + exists [e]. split; [done|]. split; [|by rewrite Hp].
      rewrite He. by rewrite app_nil_r.
  - match goal with H : (if ?c then _ else _) _ = _ |- _ => destruct c end;
      invert_run; eexists (e :: [_]); rewrite <- !app_assoc;
      (split; [done|]); (split; [|by rewrite Hp]); rewrite He; by rewrite app_nil_r.
Qed.

Lemma collect_loop_searched fuel points all seen t r t' :
  collect_loop api fuel self points all seen t = (Ok r, t') →
  ∃ evs, t' = t ++ evs ∧
    omap searched evs = (λ p, (VStr p.1, VInt 2000)) <$> points ∧
    length (pauses 3 evs) = length points.
Proof.
  revert all seen t.
  induction points as [|[location neighborhood] points IH];
    intros all seen t Hrun; cbn [collect_loop] in Hrun.
  { invert_run. exists []. by rewrite app_nil_r. }
  invert_run.
  match goal with H : get_restaurants_in_area _ _ _ _ _ _ = _ |- _ =>
    apply area_loop_searched in H as (evs1 & -> & Hs1 & Hp1) end.
  apply IH in Hrun as (evs2 & -> & Hs2 & Hp2).
  eexists (evs1 ++ _ :: _ :: ESleep 3 :: evs2). rewrite <- !app_assoc.
  split; [done|].
  unfold pauses in *. rewrite omap_app, filter_app, Hs1, Hp1. simpl.
  split; f_equal; [exact Hs2|exact Hp2].
Qed.

(** X8: a collection that completes has searched around exactly the nine
    hard-coded search points, in their order, each with a radius of 2000,
    and has paused for 3 seconds nine times, once after each area; the
    [num_areas] argument changes none of this. *)
Theorem collection_searches_the_nine_points_whatever_num_areas
    (fuel : nat) (num_areas : Z) (t t' : list event) (r : list value) :
  collect_barcelona_restaurants api fuel self num_areas t = (Ok r, t') →
  ∃ evs, t' = t ++ evs ∧
    omap searched evs = (λ p, (VStr p.1, VInt 2000)) <$> search_points ∧
    length (pauses 3 evs) = 9%nat.
Proof.
  unfold collect_barcelona_restaurants. intros Hrun. invert_run.
  match goal with H : collect_loop _ _ _ _ _ _ _ = _ |- _ =>
    apply collect_loop_searched in H as (evs & -> & Hs & Hp) end.
  eexists (evs ++ [_; _; _; _]).
  rewrite <- !app_assoc. split; [done|].
  unfold pauses in *. rewrite omap_app, filter_app, Hs. simpl.
  rewrite !app_nil_r. split; [done|]. by rewrite Hp.
Qed.

Lemma keys_filter_unseen seen l :
  seen ∪ keys (filter (unseen seen) l) = seen ∪ keys l.
Proof.
  apply set_eq. intros k. unfold keys.
  rewrite !elem_of_union, !elem_of_list_to_set, !list_elem_of_omap.
  split.
  - intros [?|(y & [_ Hy]%list_elem_of_filter & Hk)]; [by left|right; eauto].
  - intros [?|(y & Hy & Hk)]; [by left|].
    destruct (decide (k ∈ seen)); [by left|right].
    exists y. split; [|done]. apply list_elem_of_filter. split; [|done].
    intros k' Hk'. congruence.
Qed.

Lemma keys_first_seen l :
  keys (first_seen l) = keys l.
Proof.
  induction l as [|x l IH]; [done|]. simpl.
  rewrite (filter_not_same_place x).
  change (keys (x :: ?l')) with (keys ([x] ++ l')).
  rewrite (keys_app [x] (filter _ _)), keys_filter_unseen, IH.
  by rewrite <- keys_app.
Qed.

(** X9: the duplicate filter keeps its two accumulators in step.  When
    the set [seen_place_ids] holds exactly the identifiers of the listings
    kept so far, then after another area it holds exactly the identifiers
    of the listings kept so far and those just added. *)
Theorem seen_place_ids_are_the_identifiers_of_the_kept_listings
    (kept restaurants new_restaurants : list value) (seen' : gset Py.hkey) :
  remove_duplicates restaurants (keys kept) [] = inr (seen', new_restaurants) →
  seen' = keys (kept ++ new_restaurants).
Proof.
  intros (_ & -> & ->)%remove_duplicates_first_seen.
  rewrite app_nil_l, keys_app, keys_filter_unseen. by rewrite keys_first_seen.
Qed.

End DeduplicatorMore.

(** ** More on the DetailEnricher *)

Section DetailEnricherMore.

Variable api : service.
Variable self : collector.

(** X10: a cap outside the range of the input is not rejected.  A cap at
    least as large as the input truncates nothing; a negative cap [k] is
    read as the slice [restaurants[:k]], which cuts the last [-k]
    listings off (all of them when there are no more than that).  A run
    that completes has asked for the details of exactly the listings
    that are left, in order. *)
Theorem cap_outside_the_range_of_the_input
    (restaurants : list value) (k : Z) (t t' : list event)
    (out : res (list value)) :
  k < 0 ∨ Z.of_nat (length restaurants) ≤ k →
  enrich_with_details_and_reviews api self restaurants (Some k) t = (out, t') →
  enrich_with_details_and_reviews api self restaurants (Some k) t =
    enrich_with_details_and_reviews api self
      (take (left_by_cap restaurants k) restaurants) None t ∧
  ∃ evs n, t' = t ++ evs ∧
    length (detail_requests self evs) = n ∧
    Forall2 (λ stub place_id, Py.getitem stub "place_id" = inr place_id)
      (take n restaurants) (detail_requests self evs) ∧
    (∀ r, out = Ok r → n = left_by_cap restaurants k).
Proof.
  intros Hk Hrun.
  assert (Hcap : enrich_with_details_and_reviews api self restaurants (Some k) t =
    enrich_with_details_and_reviews api self
      (take (left_by_cap restaurants k) restaurants) None t).
  { unfold enrich_with_details_and_reviews, Py.slice_to, left_by_cap.
    destruct (Z.ltb_spec k 0) as [Hneg|Hpos].
    - replace (k =? 0) with false by lia. replace (0 <=? k) with false by lia.
      cbn [negb].
      by replace (Z.to_nat (Z.of_nat (length restaurants) + k))
        with (length restaurants - Z.to_nat (- k))%nat by lia.
    - rewrite firstn_all. destruct (Z.eqb_spec k 0); cbn [negb]; [done|].
      replace (0 <=? k) with true by lia.
      by rewrite take_ge by lia. }
  split; [done|]. rewrite Hcap in Hrun.
  apply enrich_requests in Hrun as (evs & n & -> & Hlen & Hn & Hreqs & Hall).
  rewrite length_take in Hn, Hall. rewrite take_take in Hreqs.
  replace (n `min` left_by_cap restaurants k)%nat with n in Hreqs by lia.
  exists evs, n. split; [done|]. split; [done|]. split; [done|].
  intros r Hr. rewrite (Hall r Hr). unfold left_by_cap.
  destruct (k <? 0); lia.
Qed.

Lemma detail_requests_lookup total idx restaurant place_id response more :
  detail_requests self
    (progress_line total idx restaurant ::
     EGet (details_url self) (details_params self place_id) response :: more)
  = place_id :: detail_requests self more.
Proof. unfold detail_requests. simpl. by rewrite String.eqb_refl. Qed.

Lemma pauses_lookup total idx restaurant place_id response more :
  pauses (1 # 2)
    (progress_line total idx restaurant ::
     EGet (details_url self) (details_params self place_id) response :: more)
  = pauses (1 # 2) more.
Proof. done. Qed.

(** The handling of one listing: it ends normally with one request and
    one pause, or otherwise with at most one request and no pause. *)
Lemma enrich_body_pauses total idx restaurant enriched_data t out t' :
  enrich_body api self total idx restaurant enriched_data t = (out, t') →
  ∃ evs, t' = t ++ evs ∧
    ((∃ r, out = Ok r) ∧
     length (detail_requests self evs) = 1%nat ∧
     length (pauses (1 # 2) evs) = 1%nat
     ∨
     (∀ r, out ≠ Ok r) ∧
     (length (detail_requests self evs) ≤ 1)%nat ∧
     length (pauses (1 # 2) evs) = 0%nat).
Proof.
  unfold enrich_body, get_restaurant_details, bind, lift, print, sleep, ret,
    requests_get.
  destruct restaurant as [| | | | | |d];
    try (intros [= <- <-]; exists []; rewrite app_nil_r; split; [done|];
         right; split; [done|]; split; [simpl; lia|done]).
  cbn [Py.get].
  change (EPrint "[{}/{}] {}"
            [VInt idx; VInt total; default (VStr "Unknown") (d !! "name")])
    with (progress_line total idx (VDict d)).
  destruct (Py.getitem (VDict d) "place_id") as [|place_id];
    [intros [= <- <-]; eexists [_]; split; [done|];
     right; split; [done|]; split; [simpl; lia|done]|].
  repeat match goal with
  | |- context [match ?x with inl _ => _ | inr _ => _ end] => destruct x
  | |- context [if ?c then _ else _] => destruct c
  end;
    intros [= <- <-]; eexists (_ :: _ :: _); rewrite <- !app_assoc;
    (split; [simpl; done|]);
    rewrite detail_requests_lookup, pauses_lookup;
    first [ left; split; [by eauto|]; by split
          | right; split; [done|]; split; [simpl; lia|done] ].
Qed.

Lemma enrich_loop_pauses total idx restaurants enriched_data t out t' :
  enrich_loop api self total idx restaurants enriched_data t = (out, t') →
  ∃ evs, t' = t ++ evs ∧
    (length (pauses (1 # 2) evs) ≤ length (detail_requests self evs)
       ≤ S (length (pauses (1 # 2) evs)))%nat ∧
    (∀ r, out = Ok r →
       length (pauses (1 # 2) evs) = length (detail_requests self evs)).
Proof.
  revert idx enriched_data t.
  induction restaurants as [|restaurant restaurants IH];
    intros idx enriched_data t; cbn [enrich_loop].
  { intros [= <- <-]. exists []. rewrite app_nil_r. split; [done|].
    split; [simpl; lia|done]. }
  unfold bind.
  destruct (enrich_body api self total idx restaurant enriched_data t)
    as [body t1] eqn:Hbody.
  apply enrich_body_pauses in Hbody
    as (evs1 & -> & [([acc ->] & Hreq & Hpause)|(Hnot & Hreq & Hpause)]).
  - intros (evs2 & -> & Hbound & Hall)%IH.
    exists (evs1 ++ evs2). rewrite <- app_assoc. split; [done|].
    unfold pauses in *. rewrite detail_requests_app, filter_app, !length_app.
    split; [lia|]. intros r Hr. rewrite (Hall r Hr). lia.
  - destruct body as [acc| |]; [by destruct (Hnot acc)|..];
      intros [= <- <-]; exists evs1; (split; [done|]);
      (split; [lia|done]).
Qed.

(** X11: the half-second pause comes after every listing that was
    handled, whether it gave a record or was skipped.  However the run
    ends there are as many pauses as detail requests, or one less when
    the last request was followed by an exception; after a run that
    completes there are exactly as many. *)
Theorem every_handled_listing_is_followed_by_the_pause
    (restaurants : list value) (max_restaurants : option Z)
    (t t' : list event) (out : res (list value)) :
  enrich_with_details_and_reviews api self restaurants max_restaurants t
    = (out, t') →
  ∃ evs, t' = t ++ evs ∧
    (length (pauses (1 # 2) evs) ≤ length (detail_requests self evs)
       ≤ S (length (pauses (1 # 2) evs)))%nat ∧
    (∀ r, out = Ok r →
       length (pauses (1 # 2) evs) = length (detail_requests self evs)).
Proof.
  unfold enrich_with_details_and_reviews, bind, print.
  intros (evs & -> & Hbound & Hall)%enrich_loop_pauses.
  eexists (_ :: _ :: _ :: evs). rewrite <- !app_assoc. by split.
Qed.

(** X12: a listing that is not a dict, or has no [place_id], is fatal for
    the run, and the exception comes before anything is asked of the
    service about it. *)
Theorem listing_without_place_id_is_fatal_before_any_request
    (total idx : Z) (restaurant : value) (restaurants enriched_data : list value)
    (t : list event) (e : exn) :
  Py.getitem restaurant "place_id" = inl e →
  ∃ evs,
    enrich_loop api self total idx (restaurant :: restaurants) enriched_data t =
      (Raise (if is_dict restaurant then e else AttributeError), t ++ evs) ∧
    requests evs = [].
Proof.
  intros Hid. cbn [enrich_loop]. unfold enrich_body, bind, lift, print.
  destruct restaurant as [| | | | | |d];
    try (exists []; by rewrite app_nil_r).
  cbn [Py.get is_dict]. rewrite Hid. by eexists [_].
Qed.

(** X13: a details answer with status OK whose payload is falsy (null, an
    empty object, an empty list or string, zero, false) is passed over in
    silence: no record, no exception and, unlike a status that is not OK,
    no log line; after the pause the loop goes on with the records it
    had. *)
Theorem falsy_payload_is_skipped_without_a_log_line
    (total idx : Z) (restaurant : value) (restaurants enriched_data : list value)
    (t : list event) (place_id data details : value) :
  Py.getitem restaurant "place_id" = inr place_id →
  api (t ++ [progress_line total idx restaurant])
    (details_url self) (details_params self place_id) = inr data →
  Py.getitem data "status" = inr (VStr "OK") →
  Py.getitem data "result" = inr details →
  Py.truthy details = false →
  enrich_loop api self total idx (restaurant :: restaurants) enriched_data t =
    enrich_loop api self total (idx + 1) restaurants enriched_data
      (t ++ [progress_line total idx restaurant;
             EGet (details_url self) (details_params self place_id) (inr data);
             ESleep (1 # 2)]).
Proof.
  intros Hid Hget Hstatus Hres Hfalsy. cbn [enrich_loop].
  unfold bind at 1. rewrite (enrich_body_lookup api self _ _ _ _ _ _ Hid).
  rewrite (bind_ok _ _ _ _ _
    (get_restaurant_details_result api self _ _ _ _ Hget Hstatus Hres)).
  rewrite Hfalsy. unfold bind, ret, sleep. by rewrite <- !app_assoc.
Qed.

(** X14: with the coordinates in place, the optional fields are still
    not all harmless.  A [types] that is there but is not a list of
    strings, or a [reviews] that is there but has no length (null, a
    number), makes enrichment raise right after the request: the run
    ends there and returns nothing. *)
Theorem malformed_types_or_reviews_are_fatal
    (total idx : Z) (restaurant : value) (restaurants enriched_data : list value)
    (t : list event) (place_id data location lat lng : value)
    (d : gmap string value) (e : exn) :
  Py.getitem restaurant "place_id" = inr place_id →
  api (t ++ [progress_line total idx restaurant])
    (details_url self) (details_params self place_id) = inr data →
  Py.getitem data "status" = inr (VStr "OK") →
  Py.getitem data "result" = inr (VDict d) →
  Py.truthy (VDict d) = true →
  coordinates (VDict d) = inr location →
  Py.getitem location "lat" = inr lat →
  Py.getitem location "lng" = inr lng →
  (Py.join ", " (default (VList []) (d !! "types")) ≫= λ _,
     Py.len (default (VList []) (d !! "reviews"))) = inl e →
  enrich_loop api self total idx (restaurant :: restaurants) enriched_data t =
    (Raise e,
     t ++ [progress_line total idx restaurant;
           EGet (details_url self) (details_params self place_id) (inr data)]).
Proof.
  intros Hid Hget Hstatus Hres Htruthy Hcoord Hlat Hlng Hbad.
  cbn [enrich_loop]. unfold bind at 1.
  rewrite (enrich_body_lookup api self _ _ _ _ _ _ Hid).
  rewrite (bind_ok _ _ _ _ _
    (get_restaurant_details_result api self _ _ _ _ Hget Hstatus Hres)).
  rewrite Htruthy. unfold bind at 1. unfold bind at 1.
  destruct (Py.join ", " (default (VList []) (d !! "types"))) as [e'|types]
    eqn:Htypes; simpl in Hbad.
  - injection Hbad as ->.
    assert (Hrec : enriched_record restaurant (VDict d) = inl e).
    { unfold enriched_record, coordinates in *. rewrite Hid.
      cbn [Py.get mbind exn_bind].
      destruct (Py.getitem (VDict d) "geometry") as [|geometry]; [done|].
      cbn [mbind exn_bind] in *. rewrite Hcoord. cbn [mbind exn_bind].
      rewrite Hlat, Hlng. cbn [mbind exn_bind]. by rewrite Htypes. }
    rewrite (lift_inl _ _ _ Hrec). by rewrite <- app_assoc.
  - rewrite (lift_inr _ _ _
      (enriched_record_with_coordinates _ _ _ _ _ _ _ Hid Hcoord Hlat Hlng Htypes)).
    match goal with |- context [Py.getitem ?record "rating"] =>
      change (Py.getitem record "rating")
        with (@inr exn _ (default VNone (d !! "rating")));
      change (Py.getitem record "reviews")
        with (@inr exn _ (default (VList []) (d !! "reviews")))
    end.
    unfold bind at 1. unfold bind at 1. cbn [lift].
    unfold bind at 1. rewrite (lift_inl _ _ _ Hbad).
    by rewrite <- app_assoc.
Qed.

Lemma enriched_record_shape restaurant details enriched :
  enriched_record restaurant details = inr enriched →
  ∃ d, enriched = VDict d ∧
    dom d = list_to_set record_keys ∧
    (∃ s, d !! "types" = Some (VStr s)) ∧
    (∃ reviews, d !! "reviews" = Some reviews).
Proof.
  unfold enriched_record.
  repeat match goal with
  | |- (?m ≫= _) = inr _ → _ =>
      destruct m; [discriminate|]; cbn [mbind exn_bind]
  end.
  intros [= <-]. eexists. split; [done|].
  split; [|split; by eexists].
  unfold record_keys. cbn [list_to_map foldr uncurry fst snd].
  by rewrite !dom_insert_L, dom_empty_L.
Qed.

Lemma enrich_body_shape total idx restaurant enriched_data t enriched_data' t' :
  enrich_body api self total idx restaurant enriched_data t
    = (Ok enriched_data', t') →
  enriched_data' = enriched_data ∨
  ∃ record, enriched_data' = enriched_data ++ [record] ∧ record_shape record.
Proof.
  unfold enrich_body. intros Hrun. invert_run.
  match goal with H : (if ?c then _ else _) _ = _ |- _ => destruct c end;
    invert_run; [|by left].
  right.
  match goal with H : enriched_record _ _ = inr ?r |- _ =>
    exists r; split; [done|];
    apply enriched_record_shape in H as (d & -> & Hdom & Htypes & reviews & Hrev)
  end.
  exists d. split; [done|]. split; [done|]. split; [done|].
  match goal with
  | H : Py.getitem (VDict d) "reviews" = inr ?v, Hl : Py.len ?v = inr ?n |- _ =>
      exists v, n; split; [|done];
      simpl in H; rewrite Hrev in H |- *; congruence
  end.
Qed.

Lemma enrich_loop_shape total idx restaurants enriched_data t r t' :
  enrich_loop api self total idx restaurants enriched_data t = (Ok r, t') →
  ∃ records, r = enriched_data ++ records ∧ Forall record_shape records.
Proof.
  revert idx enriched_data t.
  induction restaurants as [|restaurant restaurants IH];
    intros idx enriched_data t Hrun; cbn [enrich_loop] in Hrun.
  { invert_run. exists []. by rewrite app_nil_r. }
  invert_run.
  match goal with H : enrich_body _ _ _ _ _ _ _ = _ |- _ =>
    apply enrich_body_shape in H as [->|(record & -> & Hshape)] end;
    apply IH in Hrun as (records & -> & Hall).
  - by exists records.
  - exists (record :: records). rewrite <- app_assoc. split; [done|].
    by constructor.
Qed.

(** X15: every record that [enrich_with_details_and_reviews] returns is
    a dict with exactly the twelve fields [place_id], [name], [address],
    [lat], [lng], [rating], [total_reviews], [price_level], [phone],
    [website], [types] and [reviews]; its [types] is a string (the type
    tags joined) and its [reviews] is something that has a length. *)
Theorem enriched_records_have_the_twelve_fields
    (restaurants : list value) (max_restaurants : option Z)
    (t t' : list event) (enriched_data : list value) :
  enrich_with_details_and_reviews api self restaurants max_restaurants t
    = (Ok enriched_data, t') →
  Forall record_shape enriched_data.
Proof.
  unfold enrich_with_details_and_reviews. intros Hrun. invert_run.
  by apply enrich_loop_shape in Hrun as (records & -> & Hall).
Qed.

End DetailEnricherMore.

(** ** More on the Exporter and on the pipeline *)

Lemma restaurant_row_of_collected rest row :
  restaurant_row_of rest row →
  collected row = Z.of_nat (length (reviews_of rest)).
Proof.
  intros (d_rest & d_row & -> & -> & _ & Hnum & _).
  unfold collected, field. by rewrite Hnum.
Qed.

Lemma total_collected_owned enriched_data rows :
  Forall2 restaurant_row_of enriched_data rows →
  total_collected rows = Z.of_nat (length (owned_reviews enriched_data)).
Proof.
  induction 1 as [|rest row enriched_data rows Hrow _ IH]; [done|].
  rewrite owned_reviews_cons, length_app, length_fmap. simpl.
  rewrite IH, (restaurant_row_of_collected _ _ Hrow). lia.
Qed.

(** X16: the two tables agree on their sizes: there are as many
    restaurant rows as records, and the review table has as many rows as
    the [num_reviews_collected] column of the restaurant table adds up
    to. *)
Theorem review_table_has_as_many_rows_as_the_counts_add_up_to
    (self : collector) (enriched_data restaurants all_reviews : list value) :
  create_dataframe self enriched_data = inr (restaurants, all_reviews) →
  length restaurants = length enriched_data ∧
  Z.of_nat (length all_reviews) = total_collected restaurants.
Proof.
  unfold create_dataframe.
  intros (rows & revs & -> & -> & Hrows & Hrevs)%dataframe_loop_inr.
  rewrite !app_nil_l. split.
  - symmetry. by eapply Forall2_length.
  - rewrite (total_collected_owned _ _ Hrows). f_equal. symmetry.
    by eapply Forall2_length.
Qed.

Lemma len_inr_iter v n : Py.len v = inr n → ∃ l, Py.iter v = inr l.
Proof. destruct v; simpl; try discriminate; eauto. Qed.

Lemma review_row_cases d place_id name review :
  d !! "place_id" = Some place_id → d !! "name" = Some name →
  if is_dict review
  then ∃ row, review_row (VDict d) review = inr row
  else review_row (VDict d) review = inl AttributeError.
Proof.
  intros Hid Hname. unfold review_row. simpl. rewrite Hid, Hname. simpl.
  destruct review; simpl; eauto.
Qed.

Lemma reviews_loop_cases d place_id name reviews all_reviews :
  d !! "place_id" = Some place_id → d !! "name" = Some name →
  (∀ e, reviews_loop (VDict d) reviews all_reviews = inl e → e = AttributeError) ∧
  (forallb is_dict reviews = true →
   ∃ out, reviews_loop (VDict d) reviews all_reviews = inr out).
Proof.
  intros Hid Hname. revert all_reviews.
  induction reviews as [|review reviews IH]; intros all_reviews;
    cbn [reviews_loop forallb].
  { split; [done|eauto]. }
  pose proof (review_row_cases d place_id name review Hid Hname) as Hrow.
  destruct (is_dict review).
  - destruct Hrow as [row ->]. cbn [mbind exn_bind andb]. apply IH.
  - rewrite Hrow. cbn [mbind exn_bind andb]. split; [congruence|done].
Qed.

Lemma record_shape_inv record :
  record_shape record →
  ∃ d place_id name reviews n,
    record = VDict d ∧ d !! "place_id" = Some place_id ∧
    d !! "name" = Some name ∧ d !! "reviews" = Some reviews ∧
    Py.len reviews = inr n.
Proof.
  intros (d & -> & Hdom & _ & reviews & n & Hrev & Hlen).
  assert (Hin : ∀ k, k ∈ record_keys → is_Some (d !! k)).
  { intros k Hk. apply elem_of_dom. rewrite Hdom. by apply elem_of_list_to_set. }
  destruct (Hin "place_id") as [place_id Hid];
    [unfold record_keys; set_solver|].
  destruct (Hin "name") as [name Hname]; [unfold record_keys; set_solver|].
  by exists d, place_id, name, reviews, n.
Qed.

Lemma dataframe_loop_cases enriched_data restaurants all_reviews :
  Forall record_shape enriched_data →
  (∀ e, dataframe_loop enriched_data restaurants all_reviews = inl e →
        e = AttributeError) ∧
  (Forall (λ rest, forallb is_dict (reviews_of rest) = true) enriched_data →
   ∃ out, dataframe_loop enriched_data restaurants all_reviews = inr out).
Proof.
  intros Hshape. revert restaurants all_reviews.
  induction Hshape as [|rest enriched_data Hrest _ IH];
    intros restaurants all_reviews; cbn [dataframe_loop].
  { split; [done|eauto]. }
  apply record_shape_inv in Hrest
    as (d & place_id & name & reviews & n & -> & Hid & Hname & Hrev & Hlen).
  destruct (len_inr_iter _ _ Hlen) as [l Hiter].
  assert (Hof : reviews_of (VDict d) = l).
  { unfold reviews_of. simpl. rewrite Hrev. simpl. by rewrite Hiter. }
  assert (Hd : default (VList []) (d !! "reviews") = reviews) by (by rewrite Hrev).
  unfold restaurant_row. cbn [Py.items Py.get mbind exn_bind].
  rewrite !Hd, Hlen. cbn [mbind exn_bind].
  rewrite Hiter. cbn [mbind exn_bind].
  destruct (reviews_loop_cases d place_id name l all_reviews Hid Hname)
    as [Hfail Hpass].
  destruct (reviews_loop (VDict d) l all_reviews) as [e|all_reviews'];
    cbn [mbind exn_bind].
  - split; [intros e' [= <-]; by apply Hfail|].
    intros [Hdicts _]%Forall_cons. rewrite Hof in Hdicts.
    by destruct (Hpass Hdicts).
  - destruct (IH (restaurants ++
      [VDict (<["num_reviews_collected":=VInt n]>
                (filter (λ kv, kv.1 ≠ "reviews") d))]) all_reviews')
      as [Hfail' Hpass'].
    split; [done|]. intros [_ Hdicts]%Forall_cons. by apply Hpass'.
Qed.

Lemma place_key_record_id s : place_key s = key_of_id (record_id s).
Proof.
  unfold place_key. destruct s as [| | | | | |d]; try done. simpl.
  by destruct (d !! "place_id").
Qed.

Section PipelineMore.

Variable api : service.
Variable self : collector.

(** X17: the records that enrichment returns can always be given to
    [create_dataframe] as far as the records themselves go: the only
    exception it can raise on them is the [AttributeError] of a review
    that is not a dict, and when the reviews of every record are dicts it
    returns the two tables. *)
Theorem flattening_enriched_records_fails_only_on_a_review_that_is_no_dict
    (restaurants : list value) (max_restaurants : option Z)
    (t t' : list event) (enriched_data : list value) :
  enrich_with_details_and_reviews api self restaurants max_restaurants t
    = (Ok enriched_data, t') →
  (∀ e, create_dataframe self enriched_data = inl e → e = AttributeError) ∧
  (Forall (λ rest, forallb is_dict (reviews_of rest) = true) enriched_data →
   ∃ tables, create_dataframe self enriched_data = inr tables).
Proof.
  unfold enrich_with_details_and_reviews. intros Hrun. invert_run.
  apply enrich_loop_shape in Hrun as (records & -> & Hall).
  by apply dataframe_loop_cases.
Qed.

(** X18: the stages fit together.  The records that enrichment returns
    for the listings that the collection returned have pairwise distinct
    identifiers, whatever the cap, so that the tables made from them meet
    the condition under which every review row refers to exactly one
    restaurant row. *)
Theorem collected_and_enriched_records_have_distinct_identifiers
    (fuel : nat) (num_areas : Z) (max_restaurants : option Z)
    (t1 t1' t2 t2' : list event) (stubs enriched_data : list value) :
  collect_barcelona_restaurants api fuel self num_areas t1 = (Ok stubs, t1') →
  enrich_with_details_and_reviews api self stubs max_restaurants t2
    = (Ok enriched_data, t2') →
  NoDup (record_id <$> enriched_data).
Proof.
  unfold collect_barcelona_restaurants, enrich_with_details_and_reviews.
  intros Hcollect Henrich. invert_run.
  match goal with H : collect_loop _ _ _ _ _ _ _ = _ |- _ =>
    apply collect_loop_first_seen in H as (evs & -> & Hkeys & ->) end.
  rewrite filter_unseen_empty, app_nil_l in Henrich.
  pose proof (first_seen_NoDup _ Hkeys) as Hnd.
  apply enrich_loop_Ok in Henrich
    as (evs' & producers & enriched & _ & _ & -> & Hsub & Hprod).
  rewrite app_nil_l.
  assert (Hsub' : producers `sublist_of` first_seen (listings evs)).
  { etrans; [exact Hsub|].
    destruct max_restaurants as [k|]; [|done].
    destruct (negb (k =? 0)); [|done].
    unfold Py.slice_to. destruct (0 <=? k); apply sublist_take. }
  assert (Hnd' : NoDup (record_id <$> producers)).
  { apply (NoDup_fmap_1 key_of_id). rewrite <- list_fmap_compose.
    rewrite (list_fmap_ext (key_of_id ∘ record_id) place_key producers)
      by (intros; symmetry; apply place_key_record_id).
    apply (sublist_NoDup _ _ Hnd). by apply fmap_sublist. }
  replace (record_id <$> enriched) with (record_id <$> producers); [done|].
  clear -Hprod. induction Hprod as [|stub record ?? [details Hrec] _ IH]; [done|].
  rewrite !fmap_cons, IH. f_equal.
  by destruct (enriched_record_id _ _ _ Hrec) as [_ ->].
Qed.

End PipelineMore.

(** ** The collector and its key *)

Section Credentials.

Variable api : service.
Variable self : collector.

Lemma area_loop_addressed fuel params acc t out t' :
  param params "key" = Some (VStr (api_key self)) →
  area_loop api fuel self params acc t = (out, t') →
  ∃ evs, t' = t ++ evs ∧ Forall (addressed self) evs.
Proof.
  intros Hkey (evs & -> & Hhead & Hpaced)%area_loop_paced.
  exists evs. split; [done|]. apply Forall_lookup. intros i e Hi.
  destruct e as [url params' response| |]; [|done..].
  destruct i as [|i].
  - rewrite <- head_lookup in Hi.
    destruct (Hhead _ Hi) as [response' [= -> -> ->]]. split; [by left|done].
  - destruct (Hpaced _ _ _ _ Hi) as (j & params0 & data & token & _ & _ & _ & _ & -> & ->).
    split; [by left|done].
Qed.

Lemma collect_loop_addressed fuel points all seen t out t' :
  collect_loop api fuel self points all seen t = (out, t') →
  ∃ evs, t' = t ++ evs ∧ Forall (addressed self) evs.
Proof.
  revert all seen t.
  induction points as [|[location neighborhood] points IH];
    intros all seen t; cbn [collect_loop].
  { intros [= <- <-]. exists []. by rewrite app_nil_r. }
  unfold bind at 1.
  destruct (get_restaurants_in_area api fuel self (Some location) 2000 t)
    as [found t1] eqn:Harea.
  unfold get_restaurants_in_area in Harea.
  apply area_loop_addressed in Harea as (evs1 & -> & Hevs1); [|done].
  destruct found as [restaurants| |];
    [|intros [= <- <-]; by exists evs1..].
  unfold bind at 1, lift at 1.
  destruct (remove_duplicates restaurants seen []) as [e|r];
    [intros [= <- <-]; by exists evs1|].
  unfold bind at 1, print at 1. unfold bind at 1, print at 1.
  unfold bind at 1, sleep at 1.
  intros (evs2 & -> & Hevs2)%IH.
  eexists (evs1 ++ _ :: _ :: _ :: evs2). rewrite <- !app_assoc.
  split; [done|]. apply Forall_app. split; [done|].
  by repeat (constructor; [done|]).
Qed.

Lemma enrich_body_addressed total idx restaurant enriched_data t out t' :
  enrich_body api self total idx restaurant enriched_data t = (out, t') →
  ∃ evs, t' = t ++ evs ∧ Forall (addressed self) evs.
Proof.
  unfold enrich_body, get_restaurant_details, bind, lift, print, sleep, ret,
    requests_get.
  repeat match goal with
  | |- context [match ?x with inl _ => _ | inr _ => _ end] => destruct x
  | |- context [if ?c then _ else _] => destruct c
  end;
    intros [= <- <-];
    first [ exists []; rewrite app_nil_r; by split
          | rewrite <- ?app_assoc; eexists; split; [done|]; simpl;
            repeat (constructor; [first [done | split; [by right|done]]|]);
            constructor ].
Qed.

Lemma enrich_loop_addressed total idx restaurants enriched_data t out t' :
  enrich_loop api self total idx restaurants enriched_data t = (out, t') →
  ∃ evs, t' = t ++ evs ∧ Forall (addressed self) evs.
Proof.
  revert idx enriched_data t.
  induction restaurants as [|restaurant restaurants IH];
    intros idx enriched_data t; cbn [enrich_loop].
  { intros [= <- <-]. exists []. by rewrite app_nil_r. }
  unfold bind.
  destruct (enrich_body api self total idx restaurant enriched_data t)
    as [body t1] eqn:Hbody.
  apply enrich_body_addressed in Hbody as (evs1 & -> & Hevs1).
  destruct body as [acc| |]; [|intros [= <- <-]; by exists evs1..].
  intros (evs2 & -> & Hevs2)%IH. exists (evs1 ++ evs2).
  rewrite <- app_assoc. split; [done|]. by apply Forall_app.
Qed.

Lemma runs_addressed fuel num_areas restaurants max_restaurants t out t' :
  collect_barcelona_restaurants api fuel self num_areas t = (out, t') ∨
  enrich_with_details_and_reviews api self restaurants max_restaurants t
    = (out, t') →
  ∃ evs, t' = t ++ evs ∧ Forall (addressed self) evs.
Proof.
  intros [Hrun|Hrun].
  - unfold collect_barcelona_restaurants in Hrun. unfold bind at 1 in Hrun.
    destruct (collect_loop api fuel self search_points [] ∅ t)
      as [found t1] eqn:Hloop.
    apply collect_loop_addressed in Hloop as (evs & -> & Hevs).
    destruct found as [all_restaurants| |];
      [|injection Hrun as <- <-; by exists evs..].
    unfold bind, print, ret in Hrun. injection Hrun as <- <-.
    eexists (evs ++ [_; _; _; _]). rewrite <- !app_assoc. split; [done|].
    apply Forall_app. split; [done|]. by repeat constructor.
  - unfold enrich_with_details_and_reviews, bind, print in Hrun.
    apply enrich_loop_addressed in Hrun as (evs & -> & Hevs).
    eexists (_ :: _ :: _ :: evs). rewrite <- !app_assoc. split; [done|].
    by repeat (constructor; [done|]).
Qed.

End Credentials.

(** X19: a collector keeps what [__init__] gave it.  Every request that
    a collection or an enrichment sends, however the run ends, goes to
    the nearby-search or to the details endpoint under
    [https://maps.googleapis.com/maps/api/place], and carries as its
    [key] the key the collector was constructed with. *)
Theorem every_request_goes_to_the_places_api_with_the_given_key
    (api : service) (google_api_key : string) (fuel : nat) (num_areas : Z)
    (restaurants : list value) (max_restaurants : option Z)
    (t t' : list event) (out : res (list value)) :
  collect_barcelona_restaurants api fuel (init google_api_key) num_areas t
    = (out, t') ∨
  enrich_with_details_and_reviews api (init google_api_key) restaurants
    max_restaurants t = (out, t') →
  ∃ evs, t' = t ++ evs ∧
    ∀ url params response, EGet url params response ∈ evs →
      (url = "https://maps.googleapis.com/maps/api/place/nearbysearch/json" ∨
       url = "https://maps.googleapis.com/maps/api/place/details/json") ∧
      param params "key" = Some (VStr google_api_key).
Proof.
  intros (evs & -> & Hevs)%runs_addressed. exists evs. split; [done|].
  intros url params response Hin.
  rewrite Forall_forall in Hevs. exact (Hevs _ Hin).
Qed.

(** ** More on the Exporter: fields read only for a review *)

Lemma dataframe_loop_app l1 l2 restaurants all_reviews :
  dataframe_loop (l1 ++ l2) restaurants all_reviews =
  dataframe_loop l1 restaurants all_reviews ≫= λ r, dataframe_loop l2 r.1 r.2.
Proof.
  revert restaurants all_reviews.
  induction l1 as [|rest l1 IH]; intros restaurants all_reviews; [done|].
  cbn [app dataframe_loop].
  repeat match goal with
  | |- (?m ≫= _) = _ => destruct m; [done|]; cbn [mbind exn_bind]
  end.
  apply IH.
Qed.

(** X20: the identifier and the name of a record are read only for its
    reviews, and then they must be there.  A record that has at least one
    review but no [place_id] (or, with a [place_id], no [name]) makes
    [create_dataframe] raise the [KeyError] of the missing field,
    whatever well-formed records came before it: their rows are not
    returned. *)
Theorem record_with_a_review_needs_its_place_id_and_name
    (self : collector) (before after : list value) (d : gmap string value)
    (n : Z) (review : value) (reviews : list value) (missing : string) :
  Forall (λ rest, enriched_ok rest = true) before →
  Py.len (default (VList []) (d !! "reviews")) = inr n →
  Py.iter (default (VList []) (d !! "reviews")) = inr (review :: reviews) →
  (d !! "place_id" = None ∧ missing = "place_id") ∨
  (is_Some (d !! "place_id") ∧ d !! "name" = None ∧ missing = "name") →
  create_dataframe self (before ++ VDict d :: after) = inl (KeyError missing).
Proof.
  intros Hbefore Hlen Hiter Hmissing. unfold create_dataframe.
  rewrite dataframe_loop_app.
  destruct (dataframe_loop_total _ [] [] Hbefore) as [[rows revs] ->].
  cbn [mbind exn_bind fst snd dataframe_loop].
  unfold restaurant_row. cbn [Py.items Py.get mbind exn_bind].
  rewrite Hlen. cbn [mbind exn_bind]. rewrite Hiter. cbn [mbind exn_bind].
  cbn [reviews_loop]. unfold review_row. cbn [Py.getitem].
  destruct Hmissing as [[-> ->]|([place_id ->] & -> & ->)]; done.
Qed.

(** X21: a record without reviews needs neither.  Records that are dicts
    whose [reviews] are missing or empty are flattened whatever other
    fields they have or lack: one restaurant row each, with a count of
    0, and no review rows. *)
Theorem records_without_reviews_are_flattened_as_they_are
    (self : collector) (enriched_data : list value) :
  Forall (λ rest, ∃ d, rest = VDict d ∧
            Py.len (default (VList []) (d !! "reviews")) = inr 0)
    enriched_data →
  ∃ restaurants,
    create_dataframe self enriched_data = inr (restaurants, []) ∧
    Forall2 restaurant_row_of enriched_data restaurants ∧
    Forall (λ row, field row "num_reviews_collected" = VInt 0) restaurants.
Proof.
  intros Hempty. unfold create_dataframe.
  assert (Hrun : ∀ acc, ∃ rows,
    dataframe_loop enriched_data acc [] = inr (acc ++ rows, []) ∧
    Forall (λ row, field row "num_reviews_collected" = VInt 0) rows).
  { induction Hempty as [|rest enriched_data (d & -> & Hlen) _ IH]; intros acc.
    { exists []. by rewrite app_nil_r. }
    cbn [dataframe_loop]. unfold restaurant_row.
    cbn [Py.items Py.get mbind exn_bind]. rewrite Hlen. cbn [mbind exn_bind].
    assert (Hiter : Py.iter (default (VList []) (d !! "reviews")) = inr []).
    { destruct (default (VList []) (d !! "reviews")) as [| | | |s|l|m];
        try discriminate; simpl in *.
      - destruct s; [done|discriminate].
      - destruct l; [done|discriminate].
      - injection Hlen as Hlen. apply (inj Z.of_nat _ 0%nat) in Hlen.
        apply map_size_empty_iff in Hlen as ->. by rewrite map_to_list_empty. }
    rewrite Hiter. cbn [mbind exn_bind reviews_loop].
    destruct (IH (acc ++
      [VDict (<["num_reviews_collected":=VInt 0]>
                (filter (λ kv, kv.1 ≠ "reviews") d))])) as (rows & -> & Hrows).
    eexists (_ :: rows). rewrite <- app_assoc. split; [done|].
    constructor; [|done]. unfold field. by rewrite lookup_insert_eq. }
  destruct (Hrun []) as (rows & Hloop & Hzero).
  exists rows. split; [done|]. split; [|done].
  by apply dataframe_loop_inr in Hloop as (? & ? & [= ->]%app_inv_head & _ & ? & _).
Qed.

(** ** The further properties at work on the sample services *)

Lemma non_ok_page_witness :
  Py.getitem (VDict {["status" := VStr "OVER_QUERY_LIMIT"]}) "status"
    = inr (VStr "OVER_QUERY_LIMIT") ∧
  Py.eq_str (VStr "OVER_QUERY_LIMIT") "OK" = false ∧
  ∃ line,
    area_loop Case.over_limit 1 Sample.self
      (next_page_params Sample.self (VStr "T1")) (Sample.stubs "p" 20) [] =
      (Ok (Sample.stubs "p" 20),
       [] ++ [EGet (nearbysearch Sample.self)
                (next_page_params Sample.self (VStr "T1"))
                (inr (VDict {["status" := VStr "OVER_QUERY_LIMIT"]})); line]) ∧
    ((Py.eq_str (VStr "OVER_QUERY_LIMIT") "ZERO_RESULTS" = true ∧
      line = EPrint "No more results in this area" []) ∨
     (Py.eq_str (VStr "OVER_QUERY_LIMIT") "ZERO_RESULTS" = false ∧
      line = EPrint "Error: {}" [VStr "OVER_QUERY_LIMIT"])).
Proof.
  split; [reflexivity|]. split; [reflexivity|].
  apply (non_ok_page_ends_search_with_earlier_listings Case.over_limit
           Sample.self 0 (next_page_params Sample.self (VStr "T1"))
           (Sample.stubs "p" 20) []
           (VDict {["status" := VStr "OVER_QUERY_LIMIT"]})
           (VStr "OVER_QUERY_LIMIT"));
    reflexivity.
Defined.

Lemma area_search_listings_witness :
  Sample.finished Case.search = true ∧
  length (Sample.returned Case.search) = 25%nat ∧
  ∃ evs, Case.search.2 = [] ++ evs ∧ Sample.returned Case.search = listings evs.
Proof.
  assert (Hok : Sample.finished Case.search = true) by (vm_compute; reflexivity).
  split; [exact Hok|]. split; [vm_compute; reflexivity|].
  exact (area_search_returns_the_listings_of_its_pages Sample.two_pages
           Sample.self 2 None 5000 [] _ _ (finished_returned _ Hok)).
Defined.

Lemma later_requests_witness :
  ∃ evs, Case.search.2 = [] ++ evs ∧
    ∀ i url params response,
      evs !! S i = Some (EGet url params response) →
      ∃ j params0 data token,
        i = S j ∧
        evs !! j = Some (EGet (nearbysearch Sample.self) params0 (inr data)) ∧
        evs !! i = Some (ESleep 2) ∧
        Py.getitem data "next_page_token" = inr token ∧
        url = nearbysearch Sample.self ∧
        params = next_page_params Sample.self token.
Proof.
  exact (later_requests_follow_a_pause_and_carry_the_token Sample.two_pages
           Sample.self 2 None 5000 [] _ _ (surjective_pairing Case.search)).
Defined.

Lemma endless_witness :
  endless Case.another_page Sample.self ∧
  ∃ evs,
    get_restaurants_in_area Case.another_page 7 Sample.self None 5000 []
      = (OutOfFuel, [] ++ evs) ∧
    length (requests evs) = 7%nat.
Proof.
  assert (Hendless : endless Case.another_page Sample.self).
  { intros h params.
    exists Sample.first_page, (VList (Sample.stubs "p" 20)),
      (Sample.stubs "p" 20), (VStr "T1").
    repeat split; reflexivity. }
  split; [exact Hendless|].
  exact (search_never_returns_while_tokens_keep_coming Case.another_page
           Sample.self 7 None 5000 [] Hendless).
Defined.

Lemma unusable_page_witness :
  Py.getitem (VDict {["error_message" := VStr "bad gateway"]}) "status"
    = inl (KeyError "status") ∧
  area_loop Case.no_status 1 Sample.self
    (next_page_params Sample.self (VStr "T1")) (Sample.stubs "p" 20) [] =
    (Raise (KeyError "status"),
     [] ++ [EGet (nearbysearch Sample.self)
              (next_page_params Sample.self (VStr "T1"))
              (Case.no_status [] (nearbysearch Sample.self)
                 (next_page_params Sample.self (VStr "T1")))]).
Proof.
  split; [reflexivity|].
  apply (unusable_page_raises_and_loses_earlier_listings Case.no_status
           Sample.self 0 (next_page_params Sample.self (VStr "T1"))
           (Sample.stubs "p" 20) [] (KeyError "status")).
  right. exists (VDict {["error_message" := VStr "bad gateway"]}).
  split; [reflexivity|]. left. reflexivity.
Defined.


Lemma listing_without_place_id_witness :
  Sample.finished Case.broken_search = true ∧
  Exists (λ s, place_key s = None) (Sample.returned Case.broken_search) ∧
  ∃ e,
    collect_loop Case.broken_area 1 Sample.self
      [("41.3851,2.1734", "City Center"); ("41.3874,2.1686", "Gothic Quarter")]%string
      [Sample.stub "X123" "Can Culleretes"]
      (keys [Sample.stub "X123" "Can Culleretes"]) []
      = (Raise e, Case.broken_search.2) ∧
    (e = KeyError "place_id" ∨ e = TypeError).
Proof.
  assert (Hok : Sample.finished Case.broken_search = true)
    by (vm_compute; reflexivity).
  assert (Hbad : Exists (λ s, place_key s = None)
                   (Sample.returned Case.broken_search))
    by (apply Exists_cons_hd; reflexivity).
  split; [exact Hok|]. split; [exact Hbad|].
  exact (listing_without_place_id_aborts_the_collection Case.broken_area
           Sample.self 1 "41.3851,2.1734" "City Center"
           [("41.3874,2.1686", "Gothic Quarter")]%string
           [Sample.stub "X123" "Can Culleretes"] _
           (keys [Sample.stub "X123" "Can Culleretes"]) [] _
           (finished_returned _ Hok) Hbad).
Defined.

Lemma nine_points_witness :
  Sample.finished Sample.collection = true ∧
  ∃ evs, Sample.collection.2 = [] ++ evs ∧
    omap searched evs = (λ p, (VStr p.1, VInt 2000)) <$> search_points ∧
    length (pauses 3 evs) = 9%nat.
Proof.
  assert (Hok : Sample.finished Sample.collection = true)
    by (vm_compute; reflexivity).
  split; [exact Hok|].
  exact (collection_searches_the_nine_points_whatever_num_areas
           Sample.overlapping Sample.self 1 9 [] _ _ (finished_returned _ Hok)).
Defined.

Lemma seen_place_ids_witness :
  remove_duplicates
    [Sample.stub "X123" "Can Culleretes"; Sample.stub "Y1" "Pinotxo"]
    (keys [Sample.stub "X123" "Can Culleretes"]) []
    = inr (Case.filtered.1, Case.filtered.2) ∧
  Case.filtered.2 = [Sample.stub "Y1" "Pinotxo"] ∧
  Case.filtered.1 = keys ([Sample.stub "X123" "Can Culleretes"] ++ Case.filtered.2).
Proof.
  assert (Hrun : remove_duplicates
    [Sample.stub "X123" "Can Culleretes"; Sample.stub "Y1" "Pinotxo"]
    (keys [Sample.stub "X123" "Can Culleretes"]) []
    = inr (Case.filtered.1, Case.filtered.2)).
  { assert (Hinr : (if remove_duplicates
        [Sample.stub "X123" "Can Culleretes"; Sample.stub "Y1" "Pinotxo"]
        (keys [Sample.stub "X123" "Can Culleretes"]) [] is inr _
      then true else false) = true) by (vm_compute; reflexivity).
    unfold Case.filtered.
    destruct (remove_duplicates _ _ _) as [e|[seen new]];
      [discriminate Hinr|reflexivity]. }
  split; [exact Hrun|]. split; [vm_compute; reflexivity|].
  exact (seen_place_ids_are_the_identifiers_of_the_kept_listings
           [Sample.stub "X123" "Can Culleretes"] _ _ _ Hrun).
Defined.

Lemma cap_outside_witness :
  (-2 < 0 ∨ Z.of_nat (length (Sample.stubs "r" 5)) ≤ -2) ∧
  left_by_cap (Sample.stubs "r" 5) (-2) = 3%nat ∧
  Sample.finished Case.cut_short = true ∧
  Case.cut_short =
    enrich_with_details_and_reviews Sample.details Sample.self
      (take (left_by_cap (Sample.stubs "r" 5) (-2)) (Sample.stubs "r" 5)) None [] ∧
  ∃ evs n, Case.cut_short.2 = [] ++ evs ∧
    length (detail_requests Sample.self evs) = n ∧
    Forall2 (λ stub place_id, Py.getitem stub "place_id" = inr place_id)
      (take n (Sample.stubs "r" 5)) (detail_requests Sample.self evs) ∧
    (∀ r, Case.cut_short.1 = Ok r → n = left_by_cap (Sample.stubs "r" 5) (-2)).
Proof.
  assert (Hk : -2 < 0 ∨ Z.of_nat (length (Sample.stubs "r" 5)) ≤ -2)
    by (left; reflexivity).
  split; [exact Hk|]. split; [reflexivity|]. split; [vm_compute; reflexivity|].
  exact (cap_outside_the_range_of_the_input Sample.details Sample.self
           (Sample.stubs "r" 5) (-2) [] _ _ Hk (surjective_pairing Case.cut_short)).
Defined.

Lemma pause_witness :
  Sample.finished Sample.uncapped = true ∧
  ∃ evs, Sample.uncapped.2 = [] ++ evs ∧
    (length (pauses (1 # 2) evs) ≤ length (detail_requests Sample.self evs)
       ≤ S (length (pauses (1 # 2) evs)))%nat ∧
    (∀ r, Sample.uncapped.1 = Ok r →
       length (pauses (1 # 2) evs) = length (detail_requests Sample.self evs)).
Proof.
  split; [vm_compute; reflexivity|].
  exact (every_handled_listing_is_followed_by_the_pause Sample.details
           Sample.self (Sample.stubs "r" 3) (Some 0) [] _ _
           (surjective_pairing Sample.uncapped)).
Defined.

Lemma no_place_id_witness :
  Py.getitem Case.nameless "place_id" = inl (KeyError "place_id") ∧
  ∃ evs,
    enrich_loop Sample.details Sample.self 2 1
      [Case.nameless; Sample.stub "X123" "Can Culleretes"] [] [] =
      (Raise (if is_dict Case.nameless then KeyError "place_id" else AttributeError),
       [] ++ evs) ∧
    requests evs = [].
Proof.
  split; [reflexivity|].
  apply (listing_without_place_id_is_fatal_before_any_request Sample.details
           Sample.self 2 1 Case.nameless [Sample.stub "X123" "Can Culleretes"]
           [] [] (KeyError "place_id")).
  reflexivity.
Defined.

Lemma falsy_payload_witness :
  Py.getitem (Sample.ok_details ∅) "status" = inr (VStr "OK") ∧
  Py.getitem (Sample.ok_details ∅) "result" = inr (VDict ∅) ∧
  Py.truthy (VDict ∅) = false ∧
  enrich_loop Sample.details Sample.self 2 1
    [Sample.stub "empty" "Buit"; Sample.stub "X123" "Can Culleretes"] [] [] =
  enrich_loop Sample.details Sample.self 2 (1 + 1)
    [Sample.stub "X123" "Can Culleretes"] []
    ([] ++ [progress_line 2 1 (Sample.stub "empty" "Buit");
            EGet (details_url Sample.self)
              (details_params Sample.self (VStr "empty"))
              (inr (Sample.ok_details ∅));
            ESleep (1 # 2)]).
Proof.
  split; [reflexivity|]. split; [reflexivity|]. split; [reflexivity|].
  apply (falsy_payload_is_skipped_without_a_log_line Sample.details Sample.self
           2 1 (Sample.stub "empty" "Buit")
           [Sample.stub "X123" "Can Culleretes"] [] []
           (VStr "empty") (Sample.ok_details ∅) (VDict ∅));
    reflexivity.
Defined.

Lemma malformed_reviews_witness :
  Py.truthy (VDict Case.null_reviews) = true ∧
  coordinates (VDict Case.null_reviews) = inr Sample.location ∧
  (Py.join ", " (default (VList []) (Case.null_reviews !! "types")) ≫= λ _,
     Py.len (default (VList []) (Case.null_reviews !! "reviews")))
    = inl TypeError ∧
  enrich_loop Case.details_with_null_reviews Sample.self 2 1
    [Sample.stub "Y1" "Pinotxo"; Sample.stub "X123" "Can Culleretes"] [] [] =
    (Raise TypeError,
     [] ++ [progress_line 2 1 (Sample.stub "Y1" "Pinotxo");
            EGet (details_url Sample.self)
              (details_params Sample.self (VStr "Y1"))
              (inr (Sample.ok_details Case.null_reviews))]).
Proof.
  split; [reflexivity|]. split; [reflexivity|]. split; [reflexivity|].
  apply (malformed_types_or_reviews_are_fatal Case.details_with_null_reviews
           Sample.self 2 1 (Sample.stub "Y1" "Pinotxo")
           [Sample.stub "X123" "Can Culleretes"] [] []
           (VStr "Y1") (Sample.ok_details Case.null_reviews) Sample.location
           (VFloat (Q2Qc (413851 # 10000))) (VFloat (Q2Qc (21734 # 10000)))
           Case.null_reviews TypeError);
    reflexivity.
Defined.

Lemma twelve_fields_witness :
  Sample.finished Sample.capped = true ∧
  Forall record_shape (Sample.returned Sample.capped).
Proof.
  assert (Hok : Sample.finished Sample.capped = true)
    by (vm_compute; reflexivity).
  split; [exact Hok|].
  exact (enriched_records_have_the_twelve_fields Sample.details Sample.self
           (Sample.stubs "r" 50) (Some 10) [] _ _ (finished_returned _ Hok)).
Defined.

Lemma table_sizes_witness :
  create_dataframe Sample.self Sample.records
    = inr (Sample.tables.1, Sample.tables.2) ∧
  length Sample.tables.1 = length Sample.records ∧
  Z.of_nat (length Sample.tables.2) = total_collected Sample.tables.1.
Proof.
  assert (Hrun : create_dataframe Sample.self Sample.records
                 = inr (Sample.tables.1, Sample.tables.2)).
  { assert (Hinr : (if create_dataframe Sample.self Sample.records is inr _
                    then true else false) = true)
      by (vm_compute; reflexivity).
    unfold Sample.tables.
    destruct (create_dataframe Sample.self Sample.records) as [e|[rows revs]];
      [discriminate Hinr|reflexivity]. }
  split; [exact Hrun|].
  exact (review_table_has_as_many_rows_as_the_counts_add_up_to
           Sample.self Sample.records _ _ Hrun).
Defined.

Lemma flattening_witness :
  Sample.finished Sample.capped = true ∧
  (∀ e, create_dataframe Sample.self (Sample.returned Sample.capped) = inl e →
        e = AttributeError) ∧
  (Forall (λ rest, forallb is_dict (reviews_of rest) = true)
     (Sample.returned Sample.capped) →
   ∃ tables, create_dataframe Sample.self (Sample.returned Sample.capped)
             = inr tables).
Proof.
  assert (Hok : Sample.finished Sample.capped = true)
    by (vm_compute; reflexivity).
  split; [exact Hok|].
  exact (flattening_enriched_records_fails_only_on_a_review_that_is_no_dict
           Sample.details Sample.self (Sample.stubs "r" 50) (Some 10) [] _ _
           (finished_returned _ Hok)).
Defined.

Lemma distinct_identifiers_witness :
  Sample.finished Case.collection_run = true ∧
  Sample.finished Case.enrichment_run = true ∧
  length (Sample.returned Case.enrichment_run) = 3%nat ∧
  NoDup (record_id <$> Sample.returned Case.enrichment_run).
Proof.
  assert (Hcollected : Sample.finished Case.collection_run = true)
    by (vm_compute; reflexivity).
  assert (Henriched : Sample.finished Case.enrichment_run = true)
    by (vm_compute; reflexivity).
  split; [exact Hcollected|]. split; [exact Henriched|].
  split; [vm_compute; reflexivity|].
  exact (collected_and_enriched_records_have_distinct_identifiers Case.places
           Sample.self 1 9 (Some 10) [] _ [] _ _ _
           (finished_returned _ Hcollected) (finished_returned _ Henriched)).
Defined.

Lemma given_key_witness :
  (collect_barcelona_restaurants Sample.details 0 (init "KEY") 9 []
     = (Sample.uncapped.1, Sample.uncapped.2) ∨
   enrich_with_details_and_reviews Sample.details (init "KEY")
     (Sample.stubs "r" 3) (Some 0) [] = (Sample.uncapped.1, Sample.uncapped.2)) ∧
  ∃ evs, Sample.uncapped.2 = [] ++ evs ∧
    ∀ url params response, EGet url params response ∈ evs →
      (url = "https://maps.googleapis.com/maps/api/place/nearbysearch/json" ∨
       url = "https://maps.googleapis.com/maps/api/place/details/json") ∧
      param params "key" = Some (VStr "KEY").
Proof.
  assert (Hrun :
    collect_barcelona_restaurants Sample.details 0 (init "KEY") 9 []
      = (Sample.uncapped.1, Sample.uncapped.2) ∨
    enrich_with_details_and_reviews Sample.details (init "KEY")
      (Sample.stubs "r" 3) (Some 0) [] = (Sample.uncapped.1, Sample.uncapped.2))
    by (right; exact (surjective_pairing Sample.uncapped)).
  split; [exact Hrun|].
  exact (every_request_goes_to_the_places_api_with_the_given_key
           Sample.details "KEY" 0 9 (Sample.stubs "r" 3) (Some 0) [] _ _ Hrun).
Defined.

Lemma orphan_record_witness :
  Forall (λ rest, enriched_ok rest = true) Sample.records ∧
  Py.len (default (VList []) (Case.orphan !! "reviews")) = inr 1 ∧
  Py.iter (default (VList []) (Case.orphan !! "reviews"))
    = inr (Sample.review :: []) ∧
  Case.orphan !! "place_id" = None ∧
  create_dataframe Sample.self (Sample.records ++ VDict Case.orphan :: [])
    = inl (KeyError "place_id").
Proof.
  assert (Hok : Forall (λ rest, enriched_ok rest = true) Sample.records)
    by (repeat constructor).
  assert (Hlen : Py.len (default (VList []) (Case.orphan !! "reviews")) = inr 1)
    by reflexivity.
  assert (Hiter : Py.iter (default (VList []) (Case.orphan !! "reviews"))
                  = inr (Sample.review :: [])) by reflexivity.
  assert (Hid : Case.orphan !! "place_id" = None) by reflexivity.
  split; [exact Hok|]. split; [exact Hlen|]. split; [exact Hiter|].
  split; [exact Hid|].
  exact (record_with_a_review_needs_its_place_id_and_name Sample.self
           Sample.records [] Case.orphan 1 Sample.review [] "place_id"
           Hok Hlen Hiter (or_introl (conj Hid eq_refl))).
Defined.

Lemma bare_records_witness :
  Forall (λ rest, ∃ d, rest = VDict d ∧
            Py.len (default (VList []) (d !! "reviews")) = inr 0) Case.bare ∧
  ∃ restaurants,
    create_dataframe Sample.self Case.bare = inr (restaurants, []) ∧
    Forall2 restaurant_row_of Case.bare restaurants ∧
    Forall (λ row, field row "num_reviews_collected" = VInt 0) restaurants.
Proof.
  assert (Hbare : Forall (λ rest, ∃ d, rest = VDict d ∧
    Py.len (default (VList []) (d !! "reviews")) = inr 0) Case.bare)
    by (repeat constructor; eexists; split; reflexivity).
  split; [exact Hbare|].
  exact (records_without_reviews_are_flattened_as_they_are Sample.self
           Case.bare Hbare).
Defined.
